(** * prosoda/project.py: the pipeline-orchestration layer

    A shallow embedding of [project_setup], [project_analyse] and
    [mailinglist_analyse].  The three functions are sequential glue over
    collaborators that live in other modules (the batch-job pool, the
    database manager, the configuration loader, the file system and the
    external R scripts).  The collaborators are gathered in an environment
    record; the calls the orchestration layer makes on them are recorded,
    in program order, in a trace, and the theorems are statements about
    that trace.

    Jobs handed to the pool run in worker processes; what they do there is
    not part of this development, only whether their work succeeds, which
    the environment decides.  The configuration loader, the database
    manager, [check4ctags] and [dispatch_ts_analysis] are taken to return;
    the exceptions that are modelled are a refused submission and a failed
    external process. *)

From Stdlib Require Import Ascii String List ZArith Lia Bool PeanoNat Arith.
From Stdlib Require Import DecimalString DecimalZ DecimalPos Relations.
Import ListNotations.
Local Open Scope string_scope.
Local Open Scope list_scope.

(** ** Python values that travel through the job pool *)

Record MailingList := { ml_name : string; ml_type : string }.

(** The keys of the configuration dictionary that project.py reads. *)
Record Conf := {
  c_project : string;
  c_tagging : string;
  c_repo : string;
  c_revisions : list string;
  c_rcs : list (option string);
  c_mailinglists : list MailingList
}.

Inductive PyVal :=
| PStr (s : string)
| PBool (b : bool)
| PNone
| PConf (c : Conf)
| PStrs (l : list string).

Definition pyopt (o : option string) : PyVal :=
  match o with Some s => PStr s | None => PNone end.

(** [str(n)] on an integer. *)
Definition str (z : Z) : string := NilZero.string_of_int (Z.to_int z).

(** Truth value of [logfile]: [None] and the empty string are false. *)
Definition truthy (o : option string) : bool :=
  match o with
  | None => false
  | Some s => negb (String.eqb s "")
  end.

(** How [str.format] renders a value that may be [None]. *)
Definition fmt (o : option string) : string :=
  match o with Some s => s | None => "None" end.

(** The callables handed to [BatchJob.add]. *)
Module Fn.
Inductive t :=
| doProjectAnalysis
| loginfo
| execute_command
| layout_graph
| generate_report.

Definition eqb (a b : t) : bool :=
  match a, b with
  | doProjectAnalysis, doProjectAnalysis
  | loginfo, loginfo
  | execute_command, execute_command
  | layout_graph, layout_graph
  | generate_report, generate_report => true
  | _, _ => false
  end.
End Fn.

Definition Handle := nat.

(** A job as the pool sees it: what [BatchJob.add] was given, and the id
    it answered with. *)
Record Job := {
  job_id : Handle;
  job_func : Fn.t;
  job_args : list PyVal;
  job_kwargs : list (string * PyVal);
  job_deps : list Handle
}.

(** Lookup in a keyword dictionary. *)
Fixpoint kwarg (k : string) (d : list (string * PyVal)) : option PyVal :=
  match d with
  | [] => None
  | (k', v) :: d' => if String.eqb k k' then Some v else kwarg k d'
  end.

(** ** Calls on the collaborators, in program order *)

Inductive Event :=
| EvSetParallelJobs (n : positive)
| EvLogInfo (msg : string)
| EvCheck4ctags
| EvAdd (j : Job)
| EvGlob (pattern : string) (found : list string)
| EvJoin (handles : list Handle)
| EvDispatchTs (resdir : string) (conf : Conf)
| EvExecute (cmd : list string) (direct_io : bool) (cwd : option string)
            (status : Z).

Definition Trace := list Event.

Inductive Exn :=
| InvalidDependency (h : Handle)
| JobFailure (status : Z).

Inductive Result (A : Type) :=
| Ok (a : A)
| Raise (e : Exn).
Arguments Ok {A} a.
Arguments Raise {A} e.

(** Outcome of a join, as the interface of the pool enumerates it. *)
Inductive Outcome :=
| AllSucceeded
| PartialFailure (failed skipped : list Handle).

Inductive JobState := Succeeded | Failed | Skipped.

(** The collaborators of project.py.  None of them is defined in this
    module; the orchestration code is verified for every environment. *)
Record Env := {
  DBM : Type;
  Configuration_load : string -> string -> Conf;
  resource_filename : string -> string;
  pathjoin : list string -> string;
  pathsplit : string -> string * string;
  fs_glob : Trace -> string -> list string;
  DBManager : Conf -> DBM;
  update_release_timeline :
    DBM -> string -> string -> list string -> list (option string) -> bool ->
    DBM * list Z;
  getProjectID : DBM -> string -> string -> Z;
  getRevisionID : DBM -> Z -> string -> Z;
  getReleaseRangeID : DBM -> Z -> Z * Z -> Z;
  get_release_range : DBM -> Z -> Z -> string * string * option string;
  subprocess_status : Trace -> list string -> option string -> Z;
  work_succeeds : Job -> bool
}.

(** ** The monad: a trace of calls, and exceptions that propagate *)

Definition M (A : Type) : Type := Trace -> Result A * Trace.

Definition ret {A} (a : A) : M A := fun t => (Ok a, t).

Definition bind {A B} (m : M A) (k : A -> M B) : M B :=
  fun t =>
    match m t with
    | (Ok a, t') => k a t'
    | (Raise e, t') => (Raise e, t')
    end.

Definition emit (e : Event) : M unit := fun t => (Ok tt, t ++ [e]).

Declare Scope py_scope.
Delimit Scope py_scope with py.
Notation "x <- m ;; k" := (bind m (fun x => k))
  (at level 61, m at next level, right associativity) : py_scope.
Notation "' p <- m ;; k" := (bind m (fun x => let 'p := x in k))
  (at level 61, p pattern, m at next level, right associativity) : py_scope.
Notation "m ;; k" := (bind m (fun _ => k))
  (at level 61, right associativity) : py_scope.
Local Open Scope py_scope.

(** [for x in l: acc = body(acc, x)] *)
Fixpoint for_each {A S} (body : S -> A -> M S) (l : list A) (s : S) : M S :=
  match l with
  | [] => ret s
  | x :: l' => s' <- body s x ;; for_each body l' s'
  end.

(** [[f(x) for x in l]] *)
Fixpoint comprehension {A B} (f : A -> M B) (l : list A) : M (list B) :=
  match l with
  | [] => ret []
  | x :: l' => y <- f x ;; ys <- comprehension f l' ;; ret (y :: ys)
  end.

Definition enumerate {A} (l : list A) : list (nat * A) :=
  combine (seq 0 (length l)) l.

Definition zip {A B} (l : list A) (l' : list B) : list (A * B) := combine l l'.

(** The jobs named by the [BatchJob.add] calls of a trace, oldest first. *)
Fixpoint submitted (t : Trace) : list Job :=
  match t with
  | [] => []
  | EvAdd j :: t' => j :: submitted t'
  | _ :: t' => submitted t'
  end.

Definition log_info (msg : string) : M unit := emit (EvLogInfo msg).

(** ** The batch-job pool *)

Module BatchJob.
Section Pool.
Variable env : Env.

(** Modelled from the spec: [BatchJob.set_parallel_jobs] of prosoda/util.py,
    which is not part of this module.  The process-wide parallelism level
    is a positive integer; the call is recorded. *)
Definition set_parallel_jobs (n : positive) : M unit :=
  emit (EvSetParallelJobs n).

(** Modelled from the spec: [BatchJob.add] of prosoda/util.py.  Job ids
    are assigned monotonically at submission time and the id is the
    handle; a dependency that is not the handle of an earlier submission
    fails the submission with [InvalidDependency].  The call returns at
    once, without waiting for any job. *)
Definition add (function : Fn.t) (args : list PyVal)
           (kwargs : list (string * PyVal)) (deps : list Handle) : M Handle :=
  fun t =>
    let h := length (submitted t) in
    let t' := t ++ [EvAdd {| job_id := h; job_func := function;
                             job_args := args; job_kwargs := kwargs;
                             job_deps := deps |}] in
    match find (fun d => negb (Nat.ltb d h)) deps with
    | Some d => (Raise (InvalidDependency d), t')
    | None => (Ok h, t')
    end.

Definition succeeded (done : list JobState) (d : Handle) : bool :=
  match nth_error done d with
  | Some Succeeded => true
  | _ => false
  end.

(** Terminal state of every job, oldest first: a job runs when all its
    dependencies succeeded, and is skipped otherwise. *)
Fixpoint states (jobs : list Job) (done : list JobState) : list JobState :=
  match jobs with
  | [] => done
  | j :: jobs' =>
      let st :=
        if forallb (succeeded done) (job_deps j)
        then (if work_succeeds env j then Succeeded else Failed)
        else Skipped in
      states jobs' (done ++ [st])
  end.

Definition deps_of (jobs : list Job) (h : Handle) : list Handle :=
  match nth_error jobs h with
  | Some j => job_deps j
  | None => []
  end.

(** The handles and everything they transitively depend on. *)
Fixpoint closure (fuel : nat) (jobs : list Job) (hs : list Handle)
  : list Handle :=
  match fuel with
  | O => hs
  | S fuel' => hs ++ closure fuel' jobs (flat_map (deps_of jobs) hs)
  end.

Definition in_state (st : list JobState) (s : JobState) (h : Handle) : bool :=
  match nth_error st h, s with
  | Some Failed, Failed => true
  | Some Skipped, Skipped => true
  | Some Succeeded, Succeeded => true
  | _, _ => false
  end.

Definition status_of (jobs : list Job) (handles : list Handle) : Outcome :=
  let st := states jobs [] in
  let awaited := nodup Nat.eq_dec (closure (length jobs) jobs handles) in
  match filter (in_state st Failed) awaited,
        filter (in_state st Skipped) awaited with
  | [], [] => AllSucceeded
  | failed, skipped => PartialFailure failed skipped
  end.

(** Modelled from the spec: [BatchJob.join] of prosoda/util.py.  The
    outcome is [AllSucceeded] when every awaited job, and everything it
    transitively depends on, succeeded, and otherwise lists the failed
    and the skipped jobs. *)
Definition join (handles : list Handle) : M Outcome :=
  fun t => (Ok (status_of (submitted t) handles), t ++ [EvJoin handles]).
End Pool.
End BatchJob.

(** ** Other collaborators *)

Section Collaborators.
Variable env : Env.

(** Modelled from the spec: the external-process wrapper [execute_command]
    of prosoda/util.py.  It takes an argument vector, a direct-I/O flag
    and a working directory, runs the process, returns on exit status
    zero and raises on any other status. *)
Definition execute_command (cmd : list string) (direct_io : bool)
           (cwd : option string) : M unit :=
  fun t =>
    let status := subprocess_status env t cmd cwd in
    let t' := t ++ [EvExecute cmd direct_io cwd status] in
    if (status =? 0)%Z then (Ok tt, t') else (Raise (JobFailure status), t').

(** [check4ctags] of prosoda/util.py: only the call is recorded. *)
Definition check4ctags : M unit := emit EvCheck4ctags.

(** [dispatch_ts_analysis] of prosoda/ts.py: only the call is recorded. *)
Definition dispatch_ts_analysis (resdir : string) (conf : Conf) : M unit :=
  emit (EvDispatchTs resdir conf).

(** [glob.glob]: the answer is what the file system holds at the moment of
    the call, after everything the trace records. *)
Definition glob (pattern : string) : M (list string) :=
  fun t =>
    let found := fs_glob env t pattern in
    (Ok found, t ++ [EvGlob pattern found]).
End Collaborators.

(** ** project.py *)

(** Pickleable function for multiprocessing. *)
Definition loginfo (msg : string) : M unit := log_info msg.

Section Project.
Variable env : Env.

Definition project_setup (conf : Conf) (recreate : bool)
  : M (Z * DBM env * list Z) :=
  log_info ("=> Setting up project '" ++ c_project conf ++ "'")%string ;;
  let dbm := DBManager env conf in
  let '(dbm, new_range_ids) :=
    update_release_timeline env dbm (c_project conf) (c_tagging conf)
      (c_revisions conf) (c_rcs conf) recreate in
  let project_id := getProjectID env dbm (c_project conf) (c_tagging conf) in
  let revs := c_revisions conf in
  let all_range_ids :=
    map (fun '(start, end_) =>
           getReleaseRangeID env dbm project_id
             (getRevisionID env dbm project_id start,
              getRevisionID env dbm project_id end_))
        (zip revs (tl revs)) in
  ret (project_id, dbm, all_range_ids).

Section Range.
(** The variables of [project_analyse] that its loop body reads. *)
Variables (prosoda_conf project_conf : string) (no_report : bool)
          (loglevel : string) (logfile : option string).
Variables (conf : Conf) (repo project_resdir : string)
          (project_id : Z) (dbm : DBM env).

(** The body of the loop over [enumerate(all_range_ids)]; [jobs] is the
    list the loop appends to. *)
Definition analyse_range (jobs : list Handle) (ir : nat * Z)
  : M (list Handle) :=
  let '(i, range_id) := ir in
  let '(start_rev, end_rev, rc_rev) :=
    get_release_range env dbm project_id range_id in
  let range_resdir :=
    pathjoin env [project_resdir; (start_rev ++ "-" ++ end_rev)%string] in
  (* STAGE 1: Commit analysis *)
  let limit_history := true in
  s1 <- BatchJob.add Fn.doProjectAnalysis
          [PConf conf; PStr start_rev; PStr end_rev; pyopt rc_rev;
           PStr range_resdir; PStr repo; PBool true; PBool limit_history]
          [] [] ;;
  (* STAGE 2: Cluster analysis *)
  let exe := resource_filename env "R/cluster/persons.r" in
  let '(cwd, _) := pathsplit env exe in
  let cmd := [exe] in
  let cmd := cmd ++ ["--loglevel"; loglevel] in
  let cmd :=
    if truthy logfile
    then cmd ++ ["--logfile";
                 (fmt logfile ++ ".R.r" ++ str (Z.of_nat i))%string]
    else cmd in
  let cmd := cmd ++ ["-c"; prosoda_conf] in
  let cmd := cmd ++ ["-p"; project_conf] in
  let cmd := cmd ++ [range_resdir] in
  let cmd := cmd ++ [str range_id] in
  _ <- BatchJob.add Fn.loginfo
         [PStr ("  -> Analysing revision range " ++ start_rev ++ ".."
                ++ end_rev ++ ": Detecting clusters...")%string]
         [] [s1] ;;
  s2 <- BatchJob.add Fn.execute_command [PStrs cmd]
          [("direct_io", PBool true); ("cwd", PStr cwd)] [s1] ;;
  let jobs := jobs ++ [s2] in
  (* STAGE 3: Generate cluster graphs *)
  if negb no_report then
    files <- glob env (pathjoin env [range_resdir; "*.dot"]) ;;
    lj <- BatchJob.add Fn.loginfo
            [PStr ("  -> Analysing revision range " ++ start_rev ++ ".."
                   ++ end_rev ++ ": Generating Reports...")%string]
            [] [s2] ;;
    dotjobs <- comprehension
                 (fun file =>
                    BatchJob.add Fn.layout_graph [PStr file] [] [s2; lj])
                 files ;;
    r <- BatchJob.add Fn.generate_report
           [PStr start_rev; PStr end_rev; PStr range_resdir] [] dotjobs ;;
    ret (jobs ++ [r])
  else ret jobs.
End Range.

Definition project_analyse (resdir gitdir prosoda_conf project_conf : string)
           (no_report : bool) (loglevel : string) (logfile : option string)
           (recreate : bool) (n_jobs : positive) : M unit :=
  BatchJob.set_parallel_jobs n_jobs ;;
  let conf := Configuration_load env prosoda_conf project_conf in
  let project := c_project conf in
  let tagging := c_tagging conf in
  let repo := pathjoin env [gitdir; c_repo conf; ".git"] in
  let project_resdir := pathjoin env [resdir; project; tagging] in
  (if String.eqb "proximity" (c_tagging conf) then check4ctags else ret tt) ;;
  '(project_id, dbm, all_range_ids) <- project_setup conf recreate ;;
  (* Analyse new revision ranges *)
  jobs <- for_each
            (analyse_range prosoda_conf project_conf no_report loglevel
               logfile conf repo project_resdir project_id dbm)
            (enumerate all_range_ids) [] ;;
  _ <- BatchJob.join env jobs ;;
  (* Global stage 1: Time series generation *)
  log_info "=> Preparing time series data" ;;
  dispatch_ts_analysis project_resdir conf ;;
  (* Global stage 2: Time series analysis *)
  log_info "=> Analysing time series" ;;
  let exe := resource_filename env "R/analyse_ts.r" in
  let '(cwd, _) := pathsplit env exe in
  let cmd := [exe] in
  let cmd :=
    if truthy logfile
    then cmd ++ ["--logfile"; (fmt logfile ++ ".R.ts")%string]
    else cmd in
  let cmd := cmd ++ ["--loglevel"; loglevel] in
  let cmd := cmd ++ ["-c"; prosoda_conf] in
  let cmd := cmd ++ ["-p"; project_conf] in
  let cmd := cmd ++ [project_resdir] in
  execute_command env cmd true (Some cwd) ;;
  log_info "=> Prosoda run complete!".

Definition mailinglist_analyse (resdir mldir prosoda_conf project_conf
                                loglevel : string)
           (logfile : option string) (jobs : Z) : M unit :=
  let conf := Configuration_load env prosoda_conf project_conf in
  let ml_resdir := pathjoin env [resdir; c_project conf; "ml"] in
  let exe := resource_filename env "R/ml/batch.r" in
  let '(cwd, _) := pathsplit env exe in
  let cmd := [] in
  let cmd := cmd ++ ["--loglevel"; loglevel] in
  let cmd := cmd ++ ["-c"; prosoda_conf] in
  let cmd := cmd ++ ["-p"; project_conf] in
  let cmd := cmd ++ ["-j"; str jobs] in
  let cmd := cmd ++ [ml_resdir] in
  let cmd := cmd ++ [mldir] in
  for_each
    (fun (_ : unit) '(i, ml) =>
       log_info ("=> Analysing mailing list '" ++ ml_name ml
                 ++ "' of type '" ++ ml_type ml ++ "'")%string ;;
       let logargs := [] in
       let logargs :=
         if truthy logfile
         then ["--logfile";
               (fmt logfile ++ ".R.ml." ++ str (Z.of_nat i))%string]
         else logargs in
       execute_command env ([exe] ++ logargs ++ cmd ++ [ml_name ml])
         true (Some cwd))
    (enumerate (c_mailinglists conf)) tt ;;
  log_info "=> Prosoda mailing list analysis complete!".
End Project.

(** ** What one run writes to the trace

    The trace of [project_analyse] is computed in closed form: a head, one
    block of calls per revision range, and a tail.  The closed form is only
    a proof device; the theorems below are stated on the run itself. *)

Definition mkJob (h : Handle) (f : Fn.t) (args : list PyVal)
           (kwargs : list (string * PyVal)) (deps : list Handle) : Job :=
  {| job_id := h; job_func := f; job_args := args; job_kwargs := kwargs;
     job_deps := deps |}.

(** The layout jobs of one range: consecutive ids, one job per file. *)
Fixpoint dot_jobs (first : Handle) (s2 lj : Handle) (files : list string)
  : list Job :=
  match files with
  | [] => []
  | file :: files' =>
      mkJob first Fn.layout_graph [PStr file] [] [s2; lj]
        :: dot_jobs (S first) s2 lj files'
  end.

Section Blocks.
Variable env : Env.
Variables (prosoda_conf project_conf : string) (no_report : bool)
          (loglevel : string) (logfile : option string).
Variables (conf : Conf) (repo project_resdir : string)
          (project_id : Z) (dbm : DBM env).

Definition range_revs (range_id : Z) : string * string * option string :=
  get_release_range env dbm project_id range_id.

Definition range_resdir (range_id : Z) : string :=
  let '(start_rev, end_rev, _) := range_revs range_id in
  pathjoin env [project_resdir; (start_rev ++ "-" ++ end_rev)%string].

Definition persons_exe : string := resource_filename env "R/cluster/persons.r".

Definition cluster_cmd (i : nat) (range_id : Z) : list string :=
  let cmd := [persons_exe] in
  let cmd := cmd ++ ["--loglevel"; loglevel] in
  let cmd :=
    if truthy logfile
    then cmd ++ ["--logfile";
                 (fmt logfile ++ ".R.r" ++ str (Z.of_nat i))%string]
    else cmd in
  let cmd := cmd ++ ["-c"; prosoda_conf] in
  let cmd := cmd ++ ["-p"; project_conf] in
  let cmd := cmd ++ [range_resdir range_id] in
  cmd ++ [str range_id].

Definition commit_job (base : nat) (range_id : Z) : Job :=
  let '(start_rev, end_rev, rc_rev) := range_revs range_id in
  mkJob base Fn.doProjectAnalysis
    [PConf conf; PStr start_rev; PStr end_rev; pyopt rc_rev;
     PStr (range_resdir range_id); PStr repo; PBool true; PBool true]
    [] [].

Definition cluster_log_job (base : nat) (range_id : Z) : Job :=
  let '(start_rev, end_rev, _) := range_revs range_id in
  mkJob (base + 1) Fn.loginfo
    [PStr ("  -> Analysing revision range " ++ start_rev ++ ".."
           ++ end_rev ++ ": Detecting clusters...")%string]
    [] [base].

Definition cluster_job (base : nat) (i : nat) (range_id : Z) : Job :=
  mkJob (base + 2) Fn.execute_command [PStrs (cluster_cmd i range_id)]
    [("direct_io", PBool true);
     ("cwd", PStr (fst (pathsplit env persons_exe)))]
    [base].

Definition report_log_job (base : nat) (range_id : Z) : Job :=
  let '(start_rev, end_rev, _) := range_revs range_id in
  mkJob (base + 3) Fn.loginfo
    [PStr ("  -> Analysing revision range " ++ start_rev ++ ".."
           ++ end_rev ++ ": Generating Reports...")%string]
    [] [base + 2].

Definition report_job (base : nat) (range_id : Z) (files : list string)
  : Job :=
  let '(start_rev, end_rev, _) := range_revs range_id in
  mkJob (base + 4 + length files) Fn.generate_report
    [PStr start_rev; PStr end_rev; PStr (range_resdir range_id)]
    [] (seq (base + 4) (length files)).

Definition dot_pattern (range_id : Z) : string :=
  pathjoin env [range_resdir range_id; "*.dot"].

Definition stage12 (base : nat) (ir : nat * Z) : Trace :=
  [EvAdd (commit_job base (snd ir));
   EvAdd (cluster_log_job base (snd ir));
   EvAdd (cluster_job base (fst ir) (snd ir))].

Definition stage3 (base : nat) (range_id : Z) (files : list string) : Trace :=
  [EvGlob (dot_pattern range_id) files;
   EvAdd (report_log_job base range_id)]
    ++ map EvAdd (dot_jobs (base + 4) (base + 2) (base + 3) files)
    ++ [EvAdd (report_job base range_id files)].

(** The files the glob of a range finds, when the range starts at [t]. *)
Definition dot_files (t : Trace) (ir : nat * Z) : list string :=
  fs_glob env (t ++ stage12 (length (submitted t)) ir) (dot_pattern (snd ir)).

Definition range_events (t : Trace) (ir : nat * Z) : Trace :=
  let base := length (submitted t) in
  stage12 base ir
    ++ (if no_report then []
        else stage3 base (snd ir) (dot_files t ir)).

Definition range_handles (t : Trace) (ir : nat * Z) : list Handle :=
  let base := length (submitted t) in
  (base + 2)
    :: (if no_report then []
        else [base + 4 + length (dot_files t ir)]).

Fixpoint loop_blocks (t : Trace) (l : list (nat * Z)) : list Trace :=
  match l with
  | [] => []
  | ir :: l' =>
      range_events t ir :: loop_blocks (t ++ range_events t ir) l'
  end.

Fixpoint loop_handles (t : Trace) (l : list (nat * Z)) : list Handle :=
  match l with
  | [] => []
  | ir :: l' =>
      range_handles t ir ++ loop_handles (t ++ range_events t ir) l'
  end.
End Blocks.

(** ** One invocation of [project_analyse] *)

(** The arguments of [project_analyse]. *)
Record Invocation := {
  resdir : string;
  gitdir : string;
  prosoda_conf : string;
  project_conf : string;
  no_report : bool;
  loglevel : string;
  logfile : option string;
  recreate : bool;
  n_jobs : positive
}.

Section Run.
Variable env : Env.

(** A run from process start: nothing has been called yet. *)
Definition run (a : Invocation) : Result unit * Trace :=
  project_analyse env (resdir a) (gitdir a) (prosoda_conf a) (project_conf a)
    (no_report a) (loglevel a) (logfile a) (recreate a) (n_jobs a) [].

Definition trace_of (a : Invocation) : Trace := snd (run a).

Definition conf_of (a : Invocation) : Conf :=
  Configuration_load env (prosoda_conf a) (project_conf a).

(** What [project_setup] answers. *)
Definition setup_of (conf : Conf) (recreate : bool) : Z * DBM env * list Z :=
  let dbm :=
    fst (update_release_timeline env (DBManager env conf) (c_project conf)
           (c_tagging conf) (c_revisions conf) (c_rcs conf) recreate) in
  let project_id := getProjectID env dbm (c_project conf) (c_tagging conf) in
  (project_id, dbm,
   map (fun '(start, end_) =>
          getReleaseRangeID env dbm project_id
            (getRevisionID env dbm project_id start,
             getRevisionID env dbm project_id end_))
       (zip (c_revisions conf) (tl (c_revisions conf)))).

(** The range ids [project_setup] hands to the loop of [project_analyse]. *)
Definition range_ids_of (a : Invocation) : list Z :=
  match fst (project_setup env (conf_of a) (recreate a) []) with
  | Ok (_, _, ids) => ids
  | Raise _ => []
  end.

Variable a : Invocation.

Let conf := conf_of a.
Let project_id := fst (fst (setup_of conf (recreate a))).
Let dbm := snd (fst (setup_of conf (recreate a))).
Let ranges := enumerate (snd (setup_of conf (recreate a))).
Let repo := pathjoin env [gitdir a; c_repo conf; ".git"].
Let project_resdir := pathjoin env [resdir a; c_project conf; c_tagging conf].

Definition head_events : Trace :=
  [EvSetParallelJobs (n_jobs a)]
    ++ (if String.eqb "proximity" (c_tagging conf) then [EvCheck4ctags]
        else [])
    ++ [EvLogInfo ("=> Setting up project '" ++ c_project conf ++ "'")%string].

Definition range_blocks : list Trace :=
  loop_blocks env (prosoda_conf a) (project_conf a) (no_report a)
    (loglevel a) (logfile a) conf repo project_resdir project_id dbm
    head_events ranges.

Definition joined : list Handle :=
  loop_handles env (prosoda_conf a) (project_conf a) (no_report a)
    (loglevel a) (logfile a) conf repo project_resdir project_id dbm
    head_events ranges.

Definition ts_exe : string := resource_filename env "R/analyse_ts.r".

Definition ts_cmd : list string :=
  let cmd := [ts_exe] in
  let cmd :=
    if truthy (logfile a)
    then cmd ++ ["--logfile"; (fmt (logfile a) ++ ".R.ts")%string]
    else cmd in
  let cmd := cmd ++ ["--loglevel"; loglevel a] in
  let cmd := cmd ++ ["-c"; prosoda_conf a] in
  let cmd := cmd ++ ["-p"; project_conf a] in
  cmd ++ [project_resdir].

Definition ts_cwd : option string := Some (fst (pathsplit env ts_exe)).

Definition global_stage1 : Trace :=
  [EvJoin joined;
   EvLogInfo "=> Preparing time series data";
   EvDispatchTs project_resdir conf;
   EvLogInfo "=> Analysing time series"].

Definition ts_status : Z :=
  subprocess_status env (head_events ++ concat range_blocks ++ global_stage1)
    ts_cmd ts_cwd.

Definition tail_events : Trace :=
  global_stage1
    ++ [EvExecute ts_cmd true ts_cwd ts_status]
    ++ (if (ts_status =? 0)%Z then [EvLogInfo "=> Prosoda run complete!"]
        else []).

(** The block of a range that starts after the calls [t]. *)
Definition block_at (t : Trace) (i : nat) (rid : Z) : Trace :=
  range_events env (prosoda_conf a) (project_conf a) (no_report a)
    (loglevel a) (logfile a) conf repo project_resdir project_id dbm
    t (i, rid).
End Run.

(** ** Reading a trace *)

(** The arguments of the [BatchJob.join] calls of a trace. *)
Fixpoint joins (t : Trace) : list (list Handle) :=
  match t with
  | [] => []
  | EvJoin hs :: t' => hs :: joins t'
  | _ :: t' => joins t'
  end.

(** The values given to [BatchJob.set_parallel_jobs] in a trace. *)
Fixpoint parallel_settings (t : Trace) : list positive :=
  match t with
  | [] => []
  | EvSetParallelJobs n :: t' => n :: parallel_settings t'
  | _ :: t' => parallel_settings t'
  end.

(** The calls of a trace that belong to the two global stages. *)
Fixpoint global_stages (t : Trace) : Trace :=
  match t with
  | [] => []
  | EvDispatchTs r c :: t' => EvDispatchTs r c :: global_stages t'
  | EvExecute c d w s :: t' => EvExecute c d w s :: global_stages t'
  | _ :: t' => global_stages t'
  end.

(** [x] is named in the dependency list of [y]. *)
Definition is_dep (x y : Job) : Prop := In (job_id x) (job_deps y).

(** The jobs whose handles [project_analyse] collects for the join. *)
Definition awaited (j : Job) : bool :=
  match job_func j with
  | Fn.execute_command | Fn.generate_report => true
  | _ => false
  end.

(** Ids are consecutive from [base], and every job names only ids below
    its own. *)
Fixpoint numbered (base : nat) (js : list Job) : Prop :=
  match js with
  | [] => True
  | j :: js' =>
      job_id j = base /\ Forall (fun d => d < base) (job_deps j)
      /\ numbered (S base) js'
  end.

(** Every [BatchJob.add] call of the trace names, as dependencies, only
    handles that earlier [BatchJob.add] calls of the trace returned;
    [seen] are the handles returned before the trace starts. *)
Fixpoint deps_earlier (seen : list Handle) (t : Trace) : Prop :=
  match t with
  | [] => True
  | EvAdd j :: t' =>
      Forall (fun d => In d seen) (job_deps j)
      /\ deps_earlier (seen ++ [job_id j]) t'
  | _ :: t' => deps_earlier seen t'
  end.

(** The dependency relation a trace builds, on handles. *)
Definition depends_on (t : Trace) (d h : Handle) : Prop :=
  exists j, In j (submitted t) /\ job_id j = h /\ In d (job_deps j).

(** The patterns and results of the [glob] calls of a trace. *)
Fixpoint globs (t : Trace) : list (string * list string) :=
  match t with
  | [] => []
  | EvGlob p fs :: t' => (p, fs) :: globs t'
  | _ :: t' => globs t'
  end.

(** ** What the statements say about a range *)

Section Statements.
Variable env : Env.

(** The trace of a run is a head without submissions and joins, then one
    block of calls per revision range, in order, each satisfying [P], and
    a tail without submissions. *)
Definition per_range (a : Invocation) (P : nat -> Z -> Trace -> Prop) : Prop :=
  exists (pre : Trace) (blocks : list Trace) (post : Trace),
    trace_of env a = pre ++ concat blocks ++ post
    /\ submitted pre = [] /\ joins pre = [] /\ submitted post = []
    /\ Forall2 (fun ir b => P (fst ir) (snd ir) b)
               (enumerate (range_ids_of env a)) blocks.

(** Stages 1 and 2 of a range: the commit analysis, the log message and
    the cluster detection, which runs persons.r on the range. *)
Definition stage12_spec (rid : Z) (s1 lg s2 : Job) : Prop :=
  (job_func s1 = Fn.doProjectAnalysis /\ job_kwargs s1 = []
   /\ job_deps s1 = [])
  /\ (job_func lg = Fn.loginfo /\ job_kwargs lg = []
      /\ job_deps lg = [job_id s1])
  /\ (job_func s2 = Fn.execute_command /\ job_deps s2 = [job_id s1])
  /\ exists cmd,
       job_args s2 = [PStrs cmd]
       /\ hd_error cmd = Some (resource_filename env "R/cluster/persons.r")
       /\ last cmd EmptyString = str rid
       /\ job_kwargs s2
          = [("direct_io", PBool true);
             ("cwd", PStr (fst (pathsplit env
                            (resource_filename env "R/cluster/persons.r"))))].

(** Stage 3 of a range: the glob for graph files in the result directory
    of the range, the log message, one layout job per file found, and the
    report job. *)
Definition stage3_spec (s1 s2 : Job) (pat : string) (files : list string)
           (lj : Job) (dots : list Job) (r : Job) : Prop :=
  (exists range_resdir,
      nth_error (job_args s1) 4 = Some (PStr range_resdir)
      /\ pat = pathjoin env [range_resdir; "*.dot"])
  /\ (job_func lj = Fn.loginfo /\ job_kwargs lj = []
      /\ job_deps lj = [job_id s2])
  /\ Forall (fun d => job_func d = Fn.layout_graph /\ job_kwargs d = []
                      /\ job_deps d = [job_id s2; job_id lj]) dots
  /\ map job_args dots = map (fun f => [PStr f]) files
  /\ (job_func r = Fn.generate_report /\ job_kwargs r = []
      /\ job_deps r = map job_id dots).

(** All calls of one range. *)
Definition block_spec (reports : bool) (rid : Z) (b : Trace) : Prop :=
  exists s1 lg s2,
    stage12_spec rid s1 lg s2
    /\ if reports
       then exists pat files lj dots r,
           b = [EvAdd s1; EvAdd lg; EvAdd s2; EvGlob pat files; EvAdd lj]
                 ++ map EvAdd dots ++ [EvAdd r]
           /\ stage3_spec s1 s2 pat files lj dots r
       else b = [EvAdd s1; EvAdd lg; EvAdd s2].

(** The cluster-detection job runs persons.r on range [rid]. *)
Definition runs_persons (rid : Z) (s2 : Job) : Prop :=
  job_func s2 = Fn.execute_command
  /\ exists cmd,
       job_args s2 = [PStrs cmd]
       /\ hd_error cmd = Some (resource_filename env "R/cluster/persons.r")
       /\ last cmd EmptyString = str rid.

(** The layout jobs are one [layout_graph] job per file the glob of the
    result directory of the range found. *)
Definition one_per_dot_file (s1 : Job) (pat : string) (files : list string)
           (dots : list Job) : Prop :=
  (exists range_resdir,
      nth_error (job_args s1) 4 = Some (PStr range_resdir)
      /\ pat = pathjoin env [range_resdir; "*.dot"])
  /\ map (fun d => (job_func d, job_args d)) dots
     = map (fun f => (Fn.layout_graph, [PStr f])) files.

(** The first link of the chain: commit analysis feeds cluster detection. *)
Definition commit_feeds_cluster (rid : Z) (b : Trace) : Prop :=
  exists s1 lg s2 rest,
    b = EvAdd s1 :: EvAdd lg :: EvAdd s2 :: rest
    /\ job_func s1 = Fn.doProjectAnalysis
    /\ runs_persons rid s2
    /\ is_dep s1 s2.

(** The whole chain of one range: commit analysis, cluster detection,
    one layout job per graph file, report generation. *)
Definition chain (rid : Z) (b : Trace) : Prop :=
  exists s1 lg s2 pat files lj dots r,
    b = [EvAdd s1; EvAdd lg; EvAdd s2; EvGlob pat files; EvAdd lj]
          ++ map EvAdd dots ++ [EvAdd r]
    /\ job_func s1 = Fn.doProjectAnalysis
    /\ runs_persons rid s2
    /\ is_dep s1 s2
    /\ one_per_dot_file s1 pat files dots
    /\ Forall (is_dep s2) dots
    /\ job_func r = Fn.generate_report
    /\ Forall (fun d => is_dep d r) dots.

(** The chain, for every revision range of a run. *)
Definition pipeline_chains (a : Invocation) : Prop :=
  per_range a (fun _ rid b => chain rid b).

(** Without reports a range is the commit analysis, one log message and
    the cluster detection. *)
Definition cluster_only (rid : Z) (b : Trace) : Prop :=
  exists s1 lg s2,
    b = [EvAdd s1; EvAdd lg; EvAdd s2]
    /\ (job_func s1 = Fn.doProjectAnalysis /\ job_deps s1 = [])
    /\ (job_func lg = Fn.loginfo /\ job_deps lg = [job_id s1])
    /\ (runs_persons rid s2 /\ job_deps s2 = [job_id s1]).

(** A range with reports: the glob is evaluated while submitting, right
    after the cluster-detection job was submitted; the layout jobs are
    one per file found, and the report job depends on exactly them.  When
    nothing is found the report job has no dependency, and neither the
    commit-analysis nor the cluster-detection job of the range comes
    before it in the dependency order of the run [t]. *)
Definition glob_then_report (t : Trace) (b : Trace) : Prop :=
  exists s1 lg s2 pat files lj dots r,
    b = [EvAdd s1; EvAdd lg; EvAdd s2; EvGlob pat files; EvAdd lj]
          ++ map EvAdd dots ++ [EvAdd r]
    /\ job_func s1 = Fn.doProjectAnalysis
    /\ job_func s2 = Fn.execute_command
    /\ one_per_dot_file s1 pat files dots
    /\ job_func r = Fn.generate_report
    /\ job_deps r = map job_id dots
    /\ (files = [] ->
        job_deps r = []
        /\ ~ clos_trans Handle (depends_on t) (job_id s1) (job_id r)
        /\ ~ clos_trans Handle (depends_on t) (job_id s2) (job_id r)).

(** How a submitted job is configured: an external-process job carries
    its argument vector, [direct_io] set and a working directory; every
    other job has no keyword arguments. *)
Definition job_io (j : Job) : Prop :=
  match job_func j with
  | Fn.execute_command =>
      exists cmd,
        job_args j = [PStrs cmd]
        /\ hd_error cmd = Some (resource_filename env "R/cluster/persons.r")
        /\ job_kwargs j
           = [("direct_io", PBool true);
              ("cwd", PStr (fst (pathsplit env
                             (resource_filename env "R/cluster/persons.r"))))]
  | _ => job_kwargs j = []
  end.

(** The calls [mailinglist_analyse] makes on the wrapper: the batch
    script, direct I/O, the directory of the script. *)
Definition ml_call (e : Event) : Prop :=
  match e with
  | EvExecute cmd direct_io cwd _ =>
      hd_error cmd = Some (resource_filename env "R/ml/batch.r")
      /\ direct_io = true
      /\ cwd = Some (fst (pathsplit env (resource_filename env "R/ml/batch.r")))
  | EvLogInfo _ => True
  | _ => False
  end.
End Statements.

(** ** More readers of a trace *)

(** How often [check4ctags] was called. *)
Fixpoint ctags_checks (t : Trace) : nat :=
  match t with
  | [] => 0
  | EvCheck4ctags :: t' => S (ctags_checks t')
  | _ :: t' => ctags_checks t'
  end.

(** The external processes run directly, with their exit status. *)
Fixpoint executes (t : Trace) : list (list string * Z) :=
  match t with
  | [] => []
  | EvExecute cmd _ _ status :: t' => (cmd, status) :: executes t'
  | _ :: t' => executes t'
  end.

(** The submitted jobs whose work is the callable [f]. *)
Definition jobs_calling (f : Fn.t) (t : Trace) : list Job :=
  filter (fun j => Fn.eqb (job_func j) f) (submitted t).

(** A call of the pool or of [glob]: the only calls the loop over the
    ranges makes. *)
Definition is_range_call (e : Event) : bool :=
  match e with
  | EvAdd _ | EvGlob _ _ => true
  | _ => false
  end.


(** What a dependency in the run [t] points at: a submitted job that is
    not a log message, or the log message that follows a cluster
    detection. *)
Definition dep_target (t : Trace) (d : Handle) : Prop :=
  exists j',
    In j' (submitted t) /\ job_id j' = d
    /\ (job_func j' <> Fn.loginfo
        \/ exists s, In s (submitted t) /\ job_func s = Fn.execute_command
                     /\ job_deps j' = [job_id s]).

(** Nothing waits for the job [j] in the run [t]: no submitted job names
    it as a dependency and no join names it. *)
Definition never_awaited (t : Trace) (j : Job) : Prop :=
  (forall h, ~ depends_on t (job_id j) h)
  /\ Forall (fun hs => ~ In (job_id j) hs) (joins t).


(** [project_setup], called after the calls [t], answers one range id
    less than the configuration has revisions, counted as integers. *)
Definition one_range_less (env : Env) (conf : Conf) (recreate : bool)
           (t : Trace) : Prop :=
  exists project_id dbm all_range_ids,
    fst (project_setup env conf recreate t)
    = Ok (project_id, dbm, all_range_ids)
    /\ Z.of_nat (length all_range_ids)
       = (Z.of_nat (length (c_revisions conf)) - 1)%Z.

(** The cluster-detection job of a range: the third submission of the
    range runs persons.r on it, with [direct_io] set to [True]. *)
Definition cluster_job_streams (env : Env) (rid : Z) (b : Trace) : Prop :=
  exists s1 lg s2 rest,
    b = EvAdd s1 :: EvAdd lg :: EvAdd s2 :: rest
    /\ runs_persons env rid s2
    /\ kwarg "direct_io" (job_kwargs s2) = Some (PBool true).

(** The same invocation with another [logfile] argument. *)
Definition with_logfile (a : Invocation) (lf : option string) : Invocation :=
  {| resdir := resdir a; gitdir := gitdir a; prosoda_conf := prosoda_conf a;
     project_conf := project_conf a; no_report := no_report a;
     loglevel := loglevel a; logfile := lf; recreate := recreate a;
     n_jobs := n_jobs a |}.

(** ** A concrete environment

    A small project with tagged revisions and two mailing lists; the
    first range already has two graph files on disk, the second has none. *)

Module Sample.
Definition conf (revs : list string) : Conf :=
  {| c_project := "qemu"; c_tagging := "tag"; c_repo := "qemu";
     c_revisions := revs; c_rcs := map (fun _ => None) revs;
     c_mailinglists :=
       [{| ml_name := "gmane.comp.emulators.qemu"; ml_type := "dev" |};
        {| ml_name := "gmane.comp.emulators.kvm"; ml_type := "user" |}] |}.

(** Position of a revision in the release timeline, from one. *)
Fixpoint revision_id (timeline : list string) (rev : string) : Z :=
  match timeline with
  | [] => 0
  | r :: timeline' =>
      if String.eqb r rev then 1 else 1 + revision_id timeline' rev
  end.

(** Split at the last slash. *)
Fixpoint split_last (p : string) : option (string * string) :=
  match p with
  | EmptyString => None
  | String c p' =>
      match split_last p' with
      | Some (h, t) => Some (String c h, t)
      | None => if Ascii.eqb c "/"%char then Some (EmptyString, p') else None
      end
  end.

Definition env (revs : list string) (status : Z) (ok : Job -> bool) : Env :=
  {| DBM := list string;
     Configuration_load := fun _ _ => conf revs;
     resource_filename := fun r => ("/usr/lib/prosoda/" ++ r)%string;
     pathjoin := String.concat "/";
     pathsplit := fun p =>
       match split_last p with Some ht => ht | None => (EmptyString, p) end;
     fs_glob := fun _ pattern =>
       if String.eqb pattern "/res/qemu/tag/v1-v2/*.dot"
       then ["/res/qemu/tag/v1-v2/a.dot"; "/res/qemu/tag/v1-v2/b.dot"]
       else [];
     DBManager := fun _ => [];
     update_release_timeline := fun _ _ _ revisions _ _ => (revisions, []);
     getProjectID := fun _ _ _ => 7%Z;
     getRevisionID := fun timeline _ rev => revision_id timeline rev;
     getReleaseRangeID := fun _ _ '(a, _) => a;
     get_release_range := fun timeline _ range_id =>
       (nth (Z.to_nat range_id - 1) timeline EmptyString,
        nth (Z.to_nat range_id) timeline EmptyString, None);
     subprocess_status := fun _ _ _ => status;
     work_succeeds := ok |}.

(** Three revisions, two, one; two with a failing R script; and two with
    a commit analysis that fails in its worker. *)
Definition three : Env := env ["v1"; "v2"; "v3"] 0 (fun _ => true).
Definition two : Env := env ["v1"; "v2"] 0 (fun _ => true).
Definition one : Env := env ["v1"] 0 (fun _ => true).
Definition none : Env := env [] 0 (fun _ => true).
Definition failing : Env := env ["v1"; "v2"] 2 (fun _ => true).
Definition broken : Env :=
  env ["v1"; "v2"] 0
    (fun j => match job_func j with
              | Fn.doProjectAnalysis => false
              | _ => true
              end).

Definition invocation (no_report : bool) : Invocation :=
  {| resdir := "/res"; gitdir := "/git"; prosoda_conf := "prosoda.conf";
     project_conf := "qemu.conf"; no_report := no_report;
     loglevel := "info"; logfile := Some "run.log"; recreate := false;
     n_jobs := 4 |}.
End Sample.

(** * Proofs *)

(** ** Basic facts about traces and the monad *)

Lemma submitted_app (t u : Trace) :
  submitted (t ++ u) = submitted t ++ submitted u.
Proof.
  induction t as [|e t IH]; simpl; [reflexivity|].
  destruct e; simpl; rewrite ?IH; reflexivity.
Qed.

Lemma submitted_map_add (js : list Job) : submitted (map EvAdd js) = js.
Proof. induction js; simpl; congruence. Qed.

Lemma bind_ok {A B} (m : M A) (k : A -> M B) (t t' : Trace) (a : A) :
  m t = (Ok a, t') -> bind m k t = k a t'.
Proof. unfold bind; intros ->; reflexivity. Qed.

Lemma find_late_none (h : nat) (deps : list Handle) :
  Forall (fun d => d < h) deps ->
  find (fun d => negb (Nat.ltb d h)) deps = None.
Proof.
  induction 1 as [|d deps Hd _ IH]; simpl; [reflexivity|].
  apply Nat.ltb_lt in Hd; rewrite Hd; simpl; exact IH.
Qed.

Lemma add_run (f : Fn.t) args kwargs deps (t : Trace) :
  Forall (fun d => d < length (submitted t)) deps ->
  BatchJob.add f args kwargs deps t
  = (Ok (length (submitted t)),
     t ++ [EvAdd (mkJob (length (submitted t)) f args kwargs deps)]).
Proof.
  intros H; unfold BatchJob.add; rewrite (find_late_none _ _ H); reflexivity.
Qed.

Lemma dot_jobs_length first s2 lj files :
  length (dot_jobs first s2 lj files) = length files.
Proof.
  revert first; induction files; intros; simpl; [|rewrite IHfiles]; reflexivity.
Qed.

Lemma dot_jobs_ids first s2 lj files :
  map job_id (dot_jobs first s2 lj files) = seq first (length files).
Proof.
  revert first; induction files; intros; simpl; [|rewrite IHfiles]; reflexivity.
Qed.

Lemma Forall_seq_lt (a n m : nat) :
  a + n <= m -> Forall (fun d => d < m) (seq a n).
Proof.
  intros H; apply Forall_forall; intros d Hd; apply in_seq in Hd; lia.
Qed.

(** Counting the submissions of a trace that grew at its end. *)
Ltac count_jobs :=
  rewrite ?submitted_app, ?submitted_map_add, ?length_app, ?dot_jobs_length;
  cbn [submitted length app].

(** Every dependency named is the handle of an earlier submission. *)
Ltac deps_ok :=
  repeat (apply Forall_cons; [count_jobs; lia|]);
  try apply Forall_nil.

Lemma submitted_snoc_add (t : Trace) (j : Job) :
  length (submitted (t ++ [EvAdd j])) = S (length (submitted t)).
Proof. rewrite submitted_app, length_app; simpl; lia. Qed.

Lemma dotjobs_run (files : list string) : forall (t : Trace) (s2 lj : Handle),
  s2 < length (submitted t) -> lj < length (submitted t) ->
  comprehension
    (fun file => BatchJob.add Fn.layout_graph [PStr file] [] [s2; lj]) files t
  = (Ok (seq (length (submitted t)) (length files)),
     t ++ map EvAdd (dot_jobs (length (submitted t)) s2 lj files)).
Proof.
  induction files as [|file files IH]; intros t s2 lj H2 Hl; simpl.
  - unfold ret; rewrite app_nil_r; reflexivity.
  - erewrite bind_ok by (apply add_run; deps_ok).
    erewrite bind_ok by (apply IH; rewrite submitted_snoc_add; lia).
    unfold ret; simpl; rewrite submitted_snoc_add, <- app_assoc; reflexivity.
Qed.

Section Runs.
Variable env : Env.
Variables (prosoda_conf project_conf : string) (no_report : bool)
          (loglevel : string) (logfile : option string).
Variables (conf : Conf) (repo project_resdir : string)
          (project_id : Z) (dbm : DBM env).

Let body := analyse_range env prosoda_conf project_conf no_report loglevel
              logfile conf repo project_resdir project_id dbm.
Let events := range_events env prosoda_conf project_conf no_report loglevel
                logfile conf repo project_resdir project_id dbm.
Let handles := range_handles env prosoda_conf project_conf no_report loglevel
                 logfile conf repo project_resdir project_id dbm.

Lemma analyse_range_run (jobs : list Handle) (ir : nat * Z) (t : Trace) :
  body jobs ir t = (Ok (jobs ++ handles t ir), t ++ events t ir).
Proof.
  destruct ir as [i rid].
  unfold body, events, handles, analyse_range, range_events, range_handles,
    dot_files, stage12, stage3, commit_job, cluster_log_job, cluster_job,
    report_log_job, report_job, dot_pattern, cluster_cmd, range_resdir,
    persons_exe, range_revs; cbn [fst snd].
  destruct (get_release_range env dbm project_id rid) as [[s e] rc].
  destruct (pathsplit env (resource_filename env "R/cluster/persons.r"))
    as [cwd tl_]; cbn [fst snd].
  set (base := length (submitted t)).
  rewrite !Nat.add_succ_r, !Nat.add_0_r.
  erewrite bind_ok by (apply add_run; deps_ok).
  erewrite bind_ok by (apply add_run; deps_ok).
  erewrite bind_ok by (apply add_run; deps_ok).
  rewrite !submitted_snoc_add; fold base.
  destruct no_report; cbn [negb].
  - unfold ret; rewrite <- !app_assoc; reflexivity.
  - unfold glob at 1.
    erewrite bind_ok by reflexivity.
    erewrite bind_ok by (apply add_run; deps_ok).
    erewrite bind_ok by (apply dotjobs_run; count_jobs; lia).
    erewrite bind_ok
      by (apply add_run; apply Forall_seq_lt; count_jobs; lia).
    unfold ret; count_jobs; fold base.
    rewrite <- !app_assoc; cbn [app].
    repeat (f_equal; try lia).
Qed.

Lemma for_ranges_run (l : list (nat * Z)) :
  forall (jobs : list Handle) (t : Trace),
  for_each body l jobs t
  = (Ok (jobs ++ loop_handles env prosoda_conf project_conf no_report
                   loglevel logfile conf repo project_resdir project_id dbm
                   t l),
     t ++ concat (loop_blocks env prosoda_conf project_conf no_report
                    loglevel logfile conf repo project_resdir project_id dbm
                    t l)).
Proof.
  induction l as [|ir l IH]; intros jobs t; simpl.
  - unfold ret; rewrite !app_nil_r; reflexivity.
  - erewrite bind_ok by apply analyse_range_run.
    rewrite IH; fold events handles.
    rewrite <- !app_assoc; reflexivity.
Qed.
End Runs.

(** ** The whole run *)

Section Whole.
Variable env : Env.

Lemma project_setup_run (conf : Conf) (recreate : bool) (t : Trace) :
  project_setup env conf recreate t
  = (Ok (setup_of env conf recreate),
     t ++ [EvLogInfo
             ("=> Setting up project '" ++ c_project conf ++ "'")%string]).
Proof.
  unfold project_setup, setup_of, log_info, emit, bind, ret.
  destruct (update_release_timeline env (DBManager env conf) (c_project conf)
              (c_tagging conf) (c_revisions conf) (c_rcs conf) recreate)
    as [dbm new_range_ids]; reflexivity.
Qed.

Variable a : Invocation.

Let conf := conf_of env a.
Let project_id := fst (fst (setup_of env conf (recreate a))).
Let dbm := snd (fst (setup_of env conf (recreate a))).
Let ranges := enumerate (snd (setup_of env conf (recreate a))).
Let repo := pathjoin env [gitdir a; c_repo conf; ".git"].
Let project_resdir := pathjoin env [resdir a; c_project conf; c_tagging conf].

Lemma project_analyse_run :
  run env a
  = (if (ts_status env a =? 0)%Z then Ok tt
     else Raise (JobFailure (ts_status env a)),
     head_events env a ++ concat (range_blocks env a) ++ tail_events env a).
Proof.
  unfold run, project_analyse.
  unfold BatchJob.set_parallel_jobs at 1.
  erewrite bind_ok by reflexivity.
  fold (conf_of env a); fold conf.
  assert (H1 : forall t,
    (if String.eqb "proximity" (c_tagging conf) then check4ctags else ret tt) t
    = (Ok tt, t ++ (if String.eqb "proximity" (c_tagging conf)
                    then [EvCheck4ctags] else []))).
  { intros t; destruct (String.eqb "proximity" (c_tagging conf));
      unfold check4ctags, emit, ret; rewrite ?app_nil_r; reflexivity. }
  erewrite bind_ok by apply H1.
  erewrite bind_ok by apply project_setup_run.
  fold repo project_resdir.
  unfold setup_of at 1; cbv beta iota zeta.
  erewrite bind_ok by apply for_ranges_run.
  unfold BatchJob.join at 1.
  erewrite bind_ok by reflexivity.
  unfold log_info, dispatch_ts_analysis, emit.
  do 3 (erewrite bind_ok by reflexivity).
  destruct (pathsplit env (resource_filename env "R/analyse_ts.r"))
    as [cwd tl_] eqn:Esplit.
  unfold bind, execute_command, tail_events, ts_status, global_stage1,
    ts_cmd, ts_cwd, ts_exe, range_blocks, joined, head_events.
  clear H1; subst ranges project_id dbm project_resdir repo conf.
  cbv zeta; unfold setup_of; rewrite Esplit.
  cbn [fst snd]; rewrite <- !app_assoc; cbn [app].
  match goal with
  | |- context [(?s =? 0)%Z] => destruct (s =? 0)%Z
  end; do 3 (cbn [app]; rewrite <- ?app_assoc); reflexivity.
Qed.
End Whole.

Lemma joins_app (t u : Trace) : joins (t ++ u) = joins t ++ joins u.
Proof.
  induction t as [|e t IH]; simpl; [reflexivity|].
  destruct e; simpl; rewrite ?IH; reflexivity.
Qed.

Lemma joins_map_add (js : list Job) : joins (map EvAdd js) = [].
Proof. induction js; simpl; auto. Qed.

Lemma global_stages_app (t u : Trace) :
  global_stages (t ++ u) = global_stages t ++ global_stages u.
Proof.
  induction t as [|e t IH]; simpl; [reflexivity|].
  destruct e; simpl; rewrite ?IH; reflexivity.
Qed.

Lemma global_stages_map_add (js : list Job) : global_stages (map EvAdd js) = [].
Proof. induction js; simpl; auto. Qed.

Lemma parallel_settings_app (t u : Trace) :
  parallel_settings (t ++ u) = parallel_settings t ++ parallel_settings u.
Proof.
  induction t as [|e t IH]; simpl; [reflexivity|].
  destruct e; simpl; rewrite ?IH; reflexivity.
Qed.

Lemma parallel_settings_map_add (js : list Job) :
  parallel_settings (map EvAdd js) = [].
Proof. induction js; simpl; auto. Qed.

Lemma numbered_app (xs ys : list Job) : forall base,
  numbered base (xs ++ ys)
  <-> numbered base xs /\ numbered (base + length xs) ys.
Proof.
  induction xs as [|x xs IH]; intros base; simpl.
  - rewrite Nat.add_0_r; tauto.
  - rewrite IH, Nat.add_succ_r; simpl; tauto.
Qed.

Lemma numbered_nth (js : list Job) : forall base k j,
  numbered base js -> nth_error js k = Some j ->
  job_id j = base + k /\ Forall (fun d => d < base + k) (job_deps j).
Proof.
  induction js as [|x js IH]; intros base k j H Hk.
  - destruct k; discriminate.
  - destruct H as (Hid & Hdeps & Hrest); destruct k as [|k]; simpl in Hk.
    + inversion Hk; subst; rewrite Nat.add_0_r; auto.
    + rewrite Nat.add_succ_r; apply (IH (S base) k j Hrest Hk).
Qed.

Lemma numbered_in (js : list Job) (j : Job) :
  numbered 0 js -> In j js ->
  nth_error js (job_id j) = Some j
  /\ Forall (fun d => d < job_id j) (job_deps j).
Proof.
  intros H Hin; apply In_nth_error in Hin; destruct Hin as [k Hk].
  destruct (numbered_nth _ _ _ _ H Hk) as [Hid Hd]; simpl in *.
  rewrite Hid; auto.
Qed.

Lemma dot_jobs_numbered (files : list string) : forall first s2 lj,
  s2 < first -> lj < first -> numbered first (dot_jobs first s2 lj files).
Proof.
  induction files as [|f files IH]; intros first s2 lj H2 Hl; simpl; [exact I|].
  repeat split; [repeat constructor; assumption|apply IH; lia].
Qed.

Lemma dot_jobs_awaited first s2 lj files :
  filter awaited (dot_jobs first s2 lj files) = [].
Proof. revert first; induction files; intros; simpl; auto. Qed.

Lemma dot_jobs_funcs first s2 lj files :
  Forall (fun d => job_func d = Fn.layout_graph /\ job_kwargs d = []
                   /\ job_deps d = [s2; lj])
         (dot_jobs first s2 lj files).
Proof. revert first; induction files; intros; simpl; constructor; auto. Qed.

Lemma dot_jobs_args first s2 lj files :
  map job_args (dot_jobs first s2 lj files) = map (fun f => [PStr f]) files.
Proof.
  revert first; induction files; intros; simpl; [|rewrite IHfiles]; reflexivity.
Qed.

(** ** The block of one range, and the blocks of the loop *)

Section BlockFacts.
Variable env : Env.
Variables (prosoda_conf project_conf : string) (no_report : bool)
          (loglevel : string) (logfile : option string).
Variables (conf : Conf) (repo project_resdir : string)
          (project_id : Z) (dbm : DBM env).

Let events := range_events env prosoda_conf project_conf no_report loglevel
                logfile conf repo project_resdir project_id dbm.
Let handles := range_handles env prosoda_conf project_conf no_report loglevel
                 logfile conf repo project_resdir project_id dbm.
Let blocks := loop_blocks env prosoda_conf project_conf no_report loglevel
                logfile conf repo project_resdir project_id dbm.
Let collected := loop_handles env prosoda_conf project_conf no_report loglevel
                   logfile conf repo project_resdir project_id dbm.
Let files := dot_files env prosoda_conf project_conf loglevel logfile conf
               repo project_resdir project_id dbm.
Let s1 := commit_job env conf repo project_resdir project_id dbm.
Let lg := cluster_log_job env project_id dbm.
Let s2 := cluster_job env prosoda_conf project_conf loglevel logfile
            project_resdir project_id dbm.
Let lj := report_log_job env project_id dbm.
Let rj := report_job env project_resdir project_id dbm.

Ltac below := repeat (apply Forall_cons; [lia|]); try apply Forall_nil.

Ltac open_jobs rid :=
  unfold s1, lg, s2, lj, rj, commit_job, cluster_log_job, cluster_job,
    report_log_job, report_job;
  destruct (range_revs env project_id dbm rid) as [[? ?] ?].

Lemma events_eq (t : Trace) (i : nat) (rid : Z) :
  events t (i, rid)
  = let base := length (submitted t) in
    [EvAdd (s1 base rid); EvAdd (lg base rid); EvAdd (s2 base i rid)]
      ++ (if no_report then []
          else [EvGlob (dot_pattern env project_resdir project_id dbm rid)
                  (files t (i, rid));
                EvAdd (lj base rid)]
                 ++ map EvAdd (dot_jobs (base + 4) (base + 2) (base + 3)
                                 (files t (i, rid)))
                 ++ [EvAdd (rj base rid (files t (i, rid)))]).
Proof. reflexivity. Qed.

Lemma submitted_events (t : Trace) (i : nat) (rid : Z) :
  submitted (events t (i, rid))
  = let base := length (submitted t) in
    [s1 base rid; lg base rid; s2 base i rid]
      ++ (if no_report then []
          else lj base rid
                 :: dot_jobs (base + 4) (base + 2) (base + 3) (files t (i, rid))
                 ++ [rj base rid (files t (i, rid))]).
Proof.
  rewrite events_eq; cbv zeta; destruct no_report; cbn [app submitted].
  - reflexivity.
  - rewrite submitted_app, submitted_map_add; reflexivity.
Qed.

Lemma job_fields (base i : nat) (rid : Z) (fs : list string) :
  (job_id (s1 base rid) = base /\ job_func (s1 base rid) = Fn.doProjectAnalysis
   /\ job_kwargs (s1 base rid) = [] /\ job_deps (s1 base rid) = [])
  /\ (job_id (lg base rid) = base + 1 /\ job_func (lg base rid) = Fn.loginfo
      /\ job_kwargs (lg base rid) = [] /\ job_deps (lg base rid) = [base])
  /\ (job_id (s2 base i rid) = base + 2
      /\ job_func (s2 base i rid) = Fn.execute_command
      /\ job_deps (s2 base i rid) = [base])
  /\ (job_id (lj base rid) = base + 3 /\ job_func (lj base rid) = Fn.loginfo
      /\ job_kwargs (lj base rid) = [] /\ job_deps (lj base rid) = [base + 2])
  /\ (job_id (rj base rid fs) = base + 4 + length fs
      /\ job_func (rj base rid fs) = Fn.generate_report
      /\ job_kwargs (rj base rid fs) = []
      /\ job_deps (rj base rid fs) = seq (base + 4) (length fs)).
Proof. open_jobs rid; cbn; repeat split. Qed.

Lemma events_numbered (t : Trace) (ir : nat * Z) :
  numbered (length (submitted t)) (submitted (events t ir)).
Proof.
  destruct ir as [i rid]; rewrite submitted_events; cbv zeta.
  set (base := length (submitted t)); set (fs := files t (i, rid)).
  destruct (job_fields base i rid fs)
    as ((a1 & _ & _ & a2) & (b1 & _ & _ & b2) & (c1 & _ & c2)
        & (d1 & _ & _ & d2) & (e1 & _ & _ & e2)).
  cbn [app numbered]; rewrite a1, a2, b1, b2, c1, c2.
  repeat split; try lia; try solve [below].
  destruct no_report; cbn [numbered]; [exact I|].
  rewrite d1, d2; repeat split; try lia; try solve [below].
  apply numbered_app; split.
  - replace (S (S (S (S base)))) with (base + 4) by lia.
    apply dot_jobs_numbered; lia.
  - rewrite dot_jobs_length; cbn [numbered]; rewrite e1, e2.
    repeat split; try lia.
    apply Forall_seq_lt; lia.
Qed.

Lemma events_no_calls (t : Trace) (ir : nat * Z) :
  joins (events t ir) = [] /\ global_stages (events t ir) = []
  /\ parallel_settings (events t ir) = [].
Proof.
  destruct ir as [i rid]; rewrite events_eq; cbv zeta.
  destruct no_report; cbn; auto.
  rewrite joins_app, global_stages_app, parallel_settings_app,
    joins_map_add, global_stages_map_add, parallel_settings_map_add; auto.
Qed.

Lemma handles_awaited (t : Trace) (ir : nat * Z) :
  handles t ir = map job_id (filter awaited (submitted (events t ir))).
Proof.
  destruct ir as [i rid]; rewrite submitted_events; cbv zeta.
  unfold handles, range_handles; fold files.
  set (base := length (submitted t)); set (fs := files t (i, rid)).
  destruct (job_fields base i rid fs)
    as ((a1 & a2 & _) & (b1 & b2 & _) & (c1 & c2 & _)
        & (d1 & d2 & _) & (e1 & e2 & _)).
  assert (A1 : awaited (s1 base rid) = false)
    by (unfold awaited; rewrite a2; reflexivity).
  assert (A2 : awaited (lg base rid) = false)
    by (unfold awaited; rewrite b2; reflexivity).
  assert (A3 : awaited (s2 base i rid) = true)
    by (unfold awaited; rewrite c2; reflexivity).
  assert (A4 : awaited (lj base rid) = false)
    by (unfold awaited; rewrite d2; reflexivity).
  assert (A5 : awaited (rj base rid fs) = true)
    by (unfold awaited; rewrite e2; reflexivity).
  destruct no_report; cbn [app filter]; rewrite A1, A2, A3.
  - cbn [map]; rewrite c1; reflexivity.
  - rewrite A4, filter_app, dot_jobs_awaited; cbn [app filter]; rewrite A5.
    cbn [map]; rewrite c1, e1; reflexivity.
Qed.

Lemma cluster_cmd_ends (i : nat) (rid : Z) :
  hd_error (cluster_cmd env prosoda_conf project_conf loglevel logfile
              project_resdir project_id dbm i rid)
  = Some (resource_filename env "R/cluster/persons.r")
  /\ last (cluster_cmd env prosoda_conf project_conf loglevel logfile
             project_resdir project_id dbm i rid) EmptyString
     = str rid.
Proof.
  unfold cluster_cmd, persons_exe; cbv zeta; split.
  - destruct (truthy logfile); reflexivity.
  - apply last_last.
Qed.

Lemma cluster_job_call (base i : nat) (rid : Z) :
  job_args (s2 base i rid)
  = [PStrs (cluster_cmd env prosoda_conf project_conf loglevel logfile
              project_resdir project_id dbm i rid)]
  /\ job_kwargs (s2 base i rid)
     = [("direct_io", PBool true);
        ("cwd", PStr (fst (pathsplit env
                             (resource_filename env "R/cluster/persons.r"))))].
Proof. split; reflexivity. Qed.

Lemma commit_job_resdir (base : nat) (rid : Z) :
  nth_error (job_args (s1 base rid)) 4
  = Some (PStr (range_resdir env project_resdir project_id dbm rid)).
Proof.
  unfold s1, commit_job, range_resdir.
  destruct (range_revs env project_id dbm rid) as [[? ?] ?]; reflexivity.
Qed.

Lemma blocks_shape (l : list (nat * Z)) : forall t,
  Forall2 (fun ir b => exists t', b = events t' ir) l (blocks t l).
Proof.
  induction l as [|ir l IH]; intros t; simpl; constructor; eauto.
Qed.

Lemma blocks_numbered (l : list (nat * Z)) : forall t,
  numbered (length (submitted t)) (submitted (concat (blocks t l))).
Proof.
  induction l as [|ir l IH]; intros t; [exact I|].
  unfold blocks; cbn [loop_blocks concat]; fold events blocks.
  rewrite submitted_app; apply numbered_app; split.
  - apply events_numbered.
  - rewrite <- length_app, <- submitted_app; apply IH.
Qed.

Lemma blocks_no_calls (l : list (nat * Z)) : forall t,
  joins (concat (blocks t l)) = [] /\ global_stages (concat (blocks t l)) = []
  /\ parallel_settings (concat (blocks t l)) = [].
Proof.
  induction l as [|ir l IH]; intros t; [cbn; auto|].
  unfold blocks; cbn [loop_blocks concat]; fold events blocks.
  rewrite joins_app, global_stages_app, parallel_settings_app.
  destruct (events_no_calls t ir) as (-> & -> & ->).
  apply IH.
Qed.

Lemma collected_awaited (l : list (nat * Z)) : forall t,
  collected t l = map job_id (filter awaited (submitted (concat (blocks t l)))).
Proof.
  induction l as [|ir l IH]; intros t; [reflexivity|].
  unfold collected, blocks; cbn [loop_blocks loop_handles concat].
  fold events blocks handles collected.
  rewrite submitted_app, filter_app, map_app, <- handles_awaited.
  f_equal; apply IH.
Qed.
End BlockFacts.

(** ** The shape of a run *)

Section Shape.
Variable env : Env.

Lemma range_ids_setup (a : Invocation) :
  range_ids_of env a = snd (setup_of env (conf_of env a) (recreate a)).
Proof.
  unfold range_ids_of; rewrite project_setup_run; cbn [fst].
  destruct (setup_of env (conf_of env a) (recreate a)) as [[pid d] ids].
  reflexivity.
Qed.

Lemma Forall2_with_in {A B} (R : A -> B -> Prop) (l : list A) (bs : list B) :
  Forall2 R l bs -> Forall2 (fun x b => R x b /\ In b bs) l bs.
Proof.
  induction 1 as [|x b l bs Hxb _ IH]; constructor.
  - split; [assumption|left; reflexivity].
  - eapply Forall2_impl; [|exact IH].
    intros x' b' [H1 H2]; split; [assumption|right; assumption].
Qed.

Lemma per_range_impl (a : Invocation) (P Q : nat -> Z -> Trace -> Prop) :
  (forall i rid b, incl b (trace_of env a) -> P i rid b -> Q i rid b) ->
  per_range env a P -> per_range env a Q.
Proof.
  intros HPQ (pre & blocks & post & Ht & Hpre & Hj & Hpost & HF).
  exists pre, blocks, post; repeat split; try assumption.
  eapply Forall2_impl; [|exact (Forall2_with_in _ _ _ HF)].
  intros [i rid] b [HP Hin]; cbn [fst snd] in *; apply HPQ; [|exact HP].
  intros e He; rewrite Ht; apply in_or_app; right; apply in_or_app; left.
  apply in_concat; exists b; split; assumption.
Qed.

Variable a : Invocation.

Let conf := conf_of env a.
Let project_id := fst (fst (setup_of env conf (recreate a))).
Let dbm := snd (fst (setup_of env conf (recreate a))).
Let repo := pathjoin env [gitdir a; c_repo conf; ".git"].
Let project_resdir := pathjoin env [resdir a; c_project conf; c_tagging conf].

Lemma trace_run : 
  trace_of env a = head_events env a ++ concat (range_blocks env a)
                     ++ tail_events env a.
Proof. unfold trace_of; rewrite project_analyse_run; reflexivity. Qed.

Lemma head_quiet :
  submitted (head_events env a) = [] /\ joins (head_events env a) = []
  /\ global_stages (head_events env a) = []
  /\ parallel_settings (head_events env a) = [n_jobs a].
Proof.
  unfold head_events.
  destruct (String.eqb "proximity" (c_tagging (conf_of env a))); cbn; auto.
Qed.

Lemma tail_quiet :
  submitted (tail_events env a) = []
  /\ parallel_settings (tail_events env a) = []
  /\ joins (tail_events env a) = [joined env a].
Proof.
  unfold tail_events, global_stage1.
  destruct (ts_status env a =? 0)%Z; cbn; auto.
Qed.

Lemma run_per_range :
  per_range env a (fun i rid b => exists t, b = block_at env a t i rid).
Proof.
  exists (head_events env a), (range_blocks env a), (tail_events env a).
  destruct head_quiet as (H1 & H2 & _), tail_quiet as (H3 & _).
  repeat split; try assumption; [apply trace_run|].
  rewrite range_ids_setup; unfold range_blocks.
  eapply Forall2_impl; [|apply blocks_shape].
  intros [i rid] b [t ->]; exists t; reflexivity.
Qed.

Lemma submitted_run :
  submitted (trace_of env a) = submitted (concat (range_blocks env a)).
Proof.
  rewrite trace_run, !submitted_app.
  destruct head_quiet as (-> & _), tail_quiet as (-> & _).
  rewrite app_nil_r; reflexivity.
Qed.

Lemma run_numbered : numbered 0 (submitted (trace_of env a)).
Proof.
  rewrite submitted_run; unfold range_blocks.
  destruct head_quiet as (H & _).
  replace 0 with (length (submitted (head_events env a)))
    by (rewrite H; reflexivity).
  apply blocks_numbered.
Qed.

Lemma joined_run :
  joined env a = map job_id (filter awaited (submitted (trace_of env a))).
Proof.
  rewrite submitted_run; unfold joined, range_blocks.
  apply collected_awaited.
Qed.

Lemma blocks_quiet :
  joins (concat (range_blocks env a)) = []
  /\ global_stages (concat (range_blocks env a)) = []
  /\ parallel_settings (concat (range_blocks env a)) = [].
Proof. apply blocks_no_calls. Qed.

Lemma joins_run :
  joins (trace_of env a)
  = [map job_id (filter awaited (submitted (trace_of env a)))].
Proof.
  rewrite <- joined_run, trace_run, !joins_app.
  destruct head_quiet as (_ & -> & _), blocks_quiet as (-> & _).
  destruct tail_quiet as (_ & _ & ->); reflexivity.
Qed.
End Shape.

(** ** Dependencies only point backwards *)

Lemma numbered_deps_earlier (t : Trace) : forall n,
  numbered n (submitted t) -> deps_earlier (seq 0 n) t.
Proof.
  induction t as [|e t IH]; intros n H; simpl; [exact I|].
  destruct e; simpl in H; try (apply IH; exact H).
  destruct H as (Hid & Hdeps & Hrest); split.
  - eapply Forall_impl; [|exact Hdeps].
    intros d Hd; apply in_seq; cbv beta in Hd; simpl; lia.
  - rewrite Hid; change [n] with (seq (0 + n) 1).
    rewrite <- seq_app, Nat.add_1_r; apply IH; exact Hrest.
Qed.

Lemma numbered_depends_lt (t : Trace) (d h : Handle) :
  numbered 0 (submitted t) -> depends_on t d h -> d < h.
Proof.
  intros Hn (j & Hin & <- & Hd).
  destruct (numbered_in _ _ Hn Hin) as [_ Hlt].
  rewrite Forall_forall in Hlt; apply Hlt; exact Hd.
Qed.

Lemma numbered_reach_lt (t : Trace) (d h : Handle) :
  numbered 0 (submitted t) ->
  clos_trans Handle (depends_on t) d h -> d < h.
Proof.
  intros Hn Hr; induction Hr.
  - eapply numbered_depends_lt; eassumption.
  - lia.
Qed.

(** A job submitted without dependencies has nothing before it in the
    dependency order. *)
Lemma no_deps_unordered (t : Trace) (r : Job) (x : Handle) :
  numbered 0 (submitted t) -> In r (submitted t) -> job_deps r = [] ->
  ~ clos_trans Handle (depends_on t) x (job_id r).
Proof.
  intros Hn Hin Hdeps Hreach.
  apply clos_trans_tn1 in Hreach.
  assert (Hlast : exists y, depends_on t y (job_id r))
    by (inversion Hreach; eauto).
  destruct Hlast as (y & j & Hj & Hid & Hy).
  destruct (numbered_in _ _ Hn Hj) as [Hnj _].
  destruct (numbered_in _ _ Hn Hin) as [Hnr _].
  rewrite Hid, Hnr in Hnj; inversion Hnj; subst j.
  rewrite Hdeps in Hy; exact Hy.
Qed.

Section Claims.
Variable env : Env.
Variable a : Invocation.

(** C2. Every [BatchJob.add] call of [project_analyse] names, in its
    [deps] argument, only handles returned by strictly earlier
    [BatchJob.add] calls of the run; no submission is refused with
    [InvalidDependency]; and the dependency relation the run builds has
    no cycle. *)
Theorem deps_name_earlier_handles :
  deps_earlier [] (trace_of env a)
  /\ (forall h, fst (run env a) <> Raise (InvalidDependency h))
  /\ (forall h, ~ clos_trans Handle (depends_on (trace_of env a)) h h).
Proof.
  repeat split.
  - apply (numbered_deps_earlier _ 0), run_numbered.
  - intros h; rewrite project_analyse_run; cbn [fst].
    destruct (ts_status env a =? 0)%Z; discriminate.
  - intros h H.
    apply (numbered_reach_lt _ _ _ (run_numbered env a)) in H; lia.
Qed.

(** C4. The parallelism level is set exactly once, to [n_jobs], by the
    first call of the run: no [BatchJob.add] precedes it. *)
Theorem parallelism_set_once_before_submissions :
  parallel_settings (trace_of env a) = [n_jobs a]
  /\ exists pre post,
       trace_of env a = pre ++ EvSetParallelJobs (n_jobs a) :: post
       /\ submitted pre = [].
Proof.
  split.
  - rewrite trace_run, !parallel_settings_app.
    destruct (head_quiet env a) as (_ & _ & _ & ->).
    destruct (tail_quiet env a) as (_ & -> & _).
    destruct (blocks_quiet env a) as (_ & _ & ->); reflexivity.
  - exists [].
    eexists; split; [|reflexivity].
    rewrite trace_run; unfold head_events; cbn [app]; reflexivity.
Qed.

(** C3. [BatchJob.join] is called exactly once, on the handles of the
    cluster-detection and report-generation jobs of all ranges, after
    every submission and before both global stages: the time-series
    generation is dispatched after the join, and the time-series analysis
    script is executed after that. *)
Theorem join_once_after_submissions_before_global_stages :
  exists pre hs post m1 rd c m2 cmd cwd st rest,
    trace_of env a = pre ++ EvJoin hs :: post
    /\ joins (trace_of env a) = [hs]
    /\ hs = map job_id (filter awaited (submitted (trace_of env a)))
    /\ submitted post = []
    /\ global_stages pre = []
    /\ post = EvLogInfo m1 :: EvDispatchTs rd c :: EvLogInfo m2
                :: EvExecute cmd true cwd st :: rest
    /\ hd_error cmd = Some (resource_filename env "R/analyse_ts.r").
Proof.
  destruct (blocks_quiet env a) as (Hj & Hg & _).
  destruct (head_quiet env a) as (_ & Hhj & Hhg & _).
  exists (head_events env a ++ concat (range_blocks env a)), (joined env a).
  do 9 eexists; repeat split.
  - rewrite trace_run, <- app_assoc; unfold tail_events, global_stage1.
    cbn [app]; reflexivity.
  - rewrite joins_run, joined_run; reflexivity.
  - apply joined_run.
  - destruct (ts_status env a =? 0)%Z; reflexivity.
  - rewrite global_stages_app, Hhg, Hg; reflexivity.
  - unfold ts_cmd, ts_exe; destruct (truthy (logfile a)); reflexivity.
Qed.
End Claims.

(** ** What is submitted for one range *)

Section Ranges.
Variable env : Env.
Variable a : Invocation.

Lemma block_at_spec (t : Trace) (i : nat) (rid : Z) :
  block_spec env (negb (no_report a)) rid (block_at env a t i rid).
Proof.
  unfold block_at; rewrite events_eq; cbv zeta.
  set (conf := conf_of env a).
  set (pid := fst (fst (setup_of env conf (recreate a)))).
  set (dbm := snd (fst (setup_of env conf (recreate a)))).
  set (repo := pathjoin env [gitdir a; c_repo conf; ".git"]).
  set (prd := pathjoin env [resdir a; c_project conf; c_tagging conf]).
  set (base := length (submitted t)).
  set (fs := dot_files env (prosoda_conf a) (project_conf a) (loglevel a)
               (logfile a) conf repo prd pid dbm t (i, rid)).
  destruct (job_fields env (prosoda_conf a) (project_conf a) (loglevel a)
              (logfile a) conf repo prd pid dbm base i rid fs)
    as ((a1 & a2 & a3 & a4) & (b1 & b2 & b3 & b4) & (c1 & c2 & c3)
        & (d1 & d2 & d3 & d4) & (e1 & e2 & e3 & e4)).
  destruct (cluster_job_call env (prosoda_conf a) (project_conf a)
              (loglevel a) (logfile a) prd pid dbm base i rid) as (f1 & f2).
  destruct (cluster_cmd_ends env (prosoda_conf a) (project_conf a)
              (loglevel a) (logfile a) prd pid dbm i rid) as (g1 & g2).
  match type of a1 with job_id ?j = _ => exists j end.
  match type of b1 with job_id ?j = _ => exists j end.
  match type of c1 with job_id ?j = _ => exists j end.
  split.
  - repeat split; try assumption.
    + rewrite b4, a1; reflexivity.
    + rewrite c3, a1; reflexivity.
    + eexists; repeat split; eassumption.
  - destruct (no_report a); cbn [negb]; [reflexivity|].
    eexists; exists fs.
    match type of d1 with job_id ?j = _ => exists j end.
    eexists.
    match type of e1 with job_id ?j = _ => exists j end.
    split; [reflexivity|].
    split; [|split; [|split; [|split]]].
    + eexists; split; [apply commit_job_resdir|reflexivity].
    + repeat split; try assumption; rewrite d4, c1; reflexivity.
    + rewrite c1, d1; apply dot_jobs_funcs.
    + apply dot_jobs_args.
    + repeat split; try assumption; rewrite e4, dot_jobs_ids; reflexivity.
Qed.

(** Every range of a run submits exactly what [block_spec] describes. *)
Lemma run_blocks :
  per_range env a (fun _ rid b => block_spec env (negb (no_report a)) rid b).
Proof.
  eapply per_range_impl; [|apply run_per_range].
  intros i rid b _ [t ->]; apply block_at_spec.
Qed.
End Ranges.

(** ** Facts shared by the statements about ranges *)

Lemma submitted_in (t : Trace) (j : Job) : In (EvAdd j) t -> In j (submitted t).
Proof.
  induction t as [|e t IH]; simpl; [tauto|].
  intros [->|H]; [left; reflexivity|].
  destruct e; simpl; auto.
Qed.

Lemma per_range_submitted (env : Env) (a : Invocation)
      (P : nat -> Z -> Trace -> Prop) (Q : Job -> Prop) :
  per_range env a P ->
  (forall i rid b, P i rid b -> Forall Q (submitted b)) ->
  Forall Q (submitted (trace_of env a)).
Proof.
  intros (pre & blocks & post & Ht & Hpre & _ & Hpost & HF) HPQ.
  rewrite Ht, !submitted_app, Hpre, Hpost, app_nil_r; cbn [app]; clear Ht.
  induction HF as [|[i rid] b l bs Hb _ IH]; cbn [concat submitted].
  - constructor.
  - rewrite submitted_app; apply Forall_app; split; [|exact IH].
    eapply HPQ; exact Hb.
Qed.

Lemma awaited_without_reports (js : list Job) :
  Forall (fun j => job_func j <> Fn.generate_report) js ->
  filter awaited js
  = filter (fun j => Fn.eqb (job_func j) Fn.execute_command) js.
Proof.
  induction 1 as [|j js Hj _ IH]; cbn [filter]; [reflexivity|].
  rewrite IH; unfold awaited; destruct (job_func j); try reflexivity.
  contradiction Hj; reflexivity.
Qed.

Lemma closure_nil (fuel : nat) (jobs : list Job) :
  BatchJob.closure fuel jobs [] = [].
Proof. induction fuel; simpl; auto. Qed.

Lemma nth_error_zip_tl {A} (l : list A) : forall i x y,
  nth_error l i = Some x -> nth_error l (S i) = Some y ->
  nth_error (zip l (tl l)) i = Some (x, y).
Proof.
  induction l as [|u l IH]; intros i x y Hx Hy; [destruct i; discriminate|].
  destruct l as [|v l]; [destruct i; discriminate|].
  destruct i as [|i]; cbn in *.
  - congruence.
  - apply (IH i x y Hx Hy).
Qed.

(** ** The per-range pipeline *)

Section Pipeline.
Variable env : Env.

Lemma layout_jobs_facts (s2 lj : Job) (files : list string) (dots : list Job)
      (r : Job) :
  Forall (fun d => job_func d = Fn.layout_graph /\ job_kwargs d = []
                   /\ job_deps d = [job_id s2; job_id lj]) dots ->
  map job_args dots = map (fun f => [PStr f]) files ->
  job_deps r = map job_id dots ->
  map (fun d => (job_func d, job_args d)) dots
  = map (fun f => (Fn.layout_graph, [PStr f])) files
  /\ Forall (is_dep s2) dots
  /\ Forall (fun d => is_dep d r) dots.
Proof.
  intros Hd Hargs Hr; repeat split.
  - clear Hr; revert files Hargs; induction Hd as [|d dots (Hf & _) _ IH];
      intros [|f files] Hargs; try discriminate; [reflexivity|].
    cbn [map] in *; injection Hargs as Ha Hrest.
    rewrite Hf, Ha, (IH _ Hrest); reflexivity.
  - eapply Forall_impl; [|exact Hd].
    intros d (_ & _ & H); unfold is_dep; rewrite H; left; reflexivity.
  - apply Forall_forall; intros d Hin; unfold is_dep; rewrite Hr.
    apply in_map; exact Hin.
Qed.

Variable a : Invocation.

Lemma stage12_links (rid : Z) (s1 lg s2 : Job) :
  stage12_spec env rid s1 lg s2 ->
  job_func s1 = Fn.doProjectAnalysis /\ runs_persons env rid s2 /\ is_dep s1 s2.
Proof.
  intros ((H1 & _) & _ & (H2 & H3) & cmd & H4 & H5 & H6 & _).
  repeat split; try assumption.
  - exists cmd; auto.
  - unfold is_dep; rewrite H3; left; reflexivity.
Qed.

(** C1, as amended.  For every revision range the commit-analysis job is
    a dependency of the cluster-detection job; and when reports are
    enabled ([no_report] is false) the cluster-detection job is a
    dependency of every graph-rendering job, of which there is one per
    .dot file found in the result directory of the range, and every
    graph-rendering job is a dependency of the report-generation job of
    the range. *)
Theorem chain_per_range :
  per_range env a (fun _ rid b => commit_feeds_cluster env rid b)
  /\ (no_report a = false -> pipeline_chains env a).
Proof.
  split.
  - eapply per_range_impl; [|apply run_blocks].
    intros _ rid b _ (s1 & lg & s2 & H12 & Hb).
    destruct (stage12_links _ _ _ _ H12) as (H1 & H2 & H3).
    destruct (negb (no_report a)).
    + destruct Hb as (pat & files & lj & dots & r & -> & _).
      exists s1, lg, s2; eexists; split; [reflexivity|auto].
    + exists s1, lg, s2, []; subst b; auto.
  - intros Hrep; eapply per_range_impl; [|apply run_blocks].
    rewrite Hrep; cbn [negb].
    intros _ rid b _ (s1 & lg & s2 & H12 & pat & files & lj & dots & r
                      & -> & Hres & _ & Hdots & Hargs & Hr & _ & Hdeps).
    destruct (stage12_links _ _ _ _ H12) as (H1 & H2 & H3).
    destruct (layout_jobs_facts _ _ _ _ _ Hdots Hargs Hdeps) as (L1 & L2 & L3).
    exists s1, lg, s2, pat, files, lj, dots, r.
    split; [reflexivity|].
    split; [exact H1|]; split; [exact H2|]; split; [exact H3|].
    split; [split; [exact Hres|exact L1]|].
    split; [exact L2|]; split; [exact Hr|exact L3].
Qed.

(** C9.  With [no_report] set, every revision range submits exactly the
    commit-analysis job, one log-message job and the cluster-detection
    job; no graph-rendering and no report-generation job is submitted in
    the run; and the one join awaits the cluster-detection handles only. *)
Theorem no_report_submits_cluster_stage_only :
  no_report a = true ->
  per_range env a (fun _ rid b => cluster_only env rid b)
  /\ Forall (fun j => job_func j <> Fn.layout_graph
                      /\ job_func j <> Fn.generate_report)
            (submitted (trace_of env a))
  /\ joins (trace_of env a)
     = [map job_id
          (filter (fun j => Fn.eqb (job_func j) Fn.execute_command)
                  (submitted (trace_of env a)))].
Proof.
  intros Hno.
  assert (Hblocks : per_range env a (fun _ rid b => cluster_only env rid b)).
  { eapply per_range_impl; [|apply run_blocks].
    rewrite Hno; cbn [negb].
    intros _ rid b _ (s1 & lg & s2 & H12 & ->).
    destruct (stage12_links _ _ _ _ H12) as (H1 & H2 & H3).
    destruct H12 as ((_ & _ & D1) & (F2 & _ & D2) & (_ & D3) & _).
    exists s1, lg, s2.
    split; [reflexivity|]; split; [split; assumption|].
    split; split; assumption. }
  assert (Hnone : Forall (fun j => job_func j <> Fn.layout_graph
                                   /\ job_func j <> Fn.generate_report)
                         (submitted (trace_of env a))).
  { eapply per_range_submitted; [exact Hblocks|].
    intros _ rid b (s1 & lg & s2 & -> & (F1 & _) & (F2 & _) & ((F3 & _) & _)).
    cbn [submitted]; repeat constructor; congruence. }
  repeat split; try assumption.
  rewrite joins_run, awaited_without_reports; [reflexivity|].
  eapply Forall_impl; [|exact Hnone]; intros j [_ H]; exact H.
Qed.
End Pipeline.

(** ** The glob for graph files *)

Section Glob.
Variable env : Env.
Variable a : Invocation.

(** X11.  With reports enabled, every revision range globs its result
    directory for .dot files while the caller submits: in the order of
    the caller's calls the glob comes right after the submission of the
    cluster-detection job, and all globs precede the only join, so the
    caller has not waited for any job.  (When the pool starts or finishes
    a job is not part of a trace, and nothing is said about it.)  The
    graph-rendering jobs are one per file found; if none is found the
    report-generation job is submitted with an empty dependency list and
    is unordered relative to the commit-analysis and cluster-detection
    jobs of the range. *)
Theorem glob_between_submissions_before_join :
  no_report a = false ->
  per_range env a (fun _ _ b => glob_then_report env (trace_of env a) b)
  /\ exists pre hs post,
       trace_of env a = pre ++ EvJoin hs :: post
       /\ joins pre = [] /\ globs post = [].
Proof.
  intros Hrep; split.
  - eapply per_range_impl; [|apply run_blocks].
    rewrite Hrep; cbn [negb].
    intros _ rid b Hincl (s1 & lg & s2 & H12 & pat & files & lj & dots & r
                          & Hb & Hres & _ & Hdots & Hargs & Hr & _ & Hdeps).
    destruct H12 as ((F1 & _) & _ & (F2 & _) & _).
    destruct (layout_jobs_facts _ _ _ _ _ Hdots Hargs Hdeps) as (L1 & _).
    exists s1, lg, s2, pat, files, lj, dots, r.
    split; [exact Hb|].
    split; [exact F1|]; split; [exact F2|].
    split; [split; [exact Hres|exact L1]|].
    split; [exact Hr|]; split; [exact Hdeps|].
    intros Hnone; subst files.
    assert (Hd : job_deps r = []).
    { rewrite Hdeps; destruct dots; [reflexivity|discriminate]. }
    assert (Hin : In r (submitted (trace_of env a))).
    { apply submitted_in, Hincl; rewrite Hb.
      apply in_or_app; right; apply in_or_app; right; left; reflexivity. }
    split; [exact Hd|].
    split; apply no_deps_unordered; auto using run_numbered.
  - exists (head_events env a ++ concat (range_blocks env a)), (joined env a).
    eexists; split; [|split].
    + rewrite trace_run, <- app_assoc; unfold tail_events, global_stage1.
      cbn [app]; reflexivity.
    + rewrite joins_app.
      destruct (head_quiet env a) as (_ & -> & _).
      destruct (blocks_quiet env a) as (-> & _); reflexivity.
    + destruct (ts_status env a =? 0)%Z; reflexivity.
Qed.
End Glob.

(** ** External processes and direct I/O *)

Section Processes.
Variable env : Env.

Lemma block_job_io (reports : bool) (rid : Z) (b : Trace) :
  block_spec env reports rid b -> Forall (job_io env) (submitted b).
Proof.
  intros (s1 & lg & s2 & ((F1 & K1 & _) & (F2 & K2 & _) & (F3 & _)
                          & cmd & A3 & H3 & _ & K3) & Hb).
  assert (J1 : job_io env s1) by (unfold job_io; rewrite F1; exact K1).
  assert (J2 : job_io env lg) by (unfold job_io; rewrite F2; exact K2).
  assert (J3 : job_io env s2)
    by (unfold job_io; rewrite F3; exists cmd; auto).
  destruct reports.
  - destruct Hb as (pat & files & lj & dots & r & -> & _ & (F4 & K4 & _)
                    & Hdots & _ & (F5 & K5 & _)).
    cbn [app submitted]; rewrite submitted_app, submitted_map_add.
    repeat (apply Forall_cons; [assumption|]).
    apply Forall_cons; [unfold job_io; rewrite F4; exact K4|].
    apply Forall_app; split.
    + eapply Forall_impl; [|exact Hdots].
      intros d (Fd & Kd & _); unfold job_io; rewrite Fd; exact Kd.
    + repeat constructor; unfold job_io; rewrite F5; exact K5.
  - subst b; cbn [submitted]; repeat constructor; assumption.
Qed.

Lemma run_job_io (a : Invocation) :
  Forall (job_io env) (submitted (trace_of env a)).
Proof.
  eapply per_range_submitted; [apply run_blocks|].
  intros i rid b; apply block_job_io.
Qed.

(** The only calls of the global stages: the time-series dispatch, then
    analyse_ts.r run directly, with direct I/O, in the directory of the
    script. *)
Lemma run_global_stages (a : Invocation) :
  global_stages (trace_of env a)
  = [EvDispatchTs
       (pathjoin env [resdir a; c_project (conf_of env a);
                      c_tagging (conf_of env a)]) (conf_of env a);
     EvExecute (ts_cmd env a) true
       (Some (fst (pathsplit env (resource_filename env "R/analyse_ts.r"))))
       (ts_status env a)]
  /\ hd_error (ts_cmd env a) = Some (resource_filename env "R/analyse_ts.r").
Proof.
  split.
  - rewrite trace_run, !global_stages_app.
    destruct (head_quiet env a) as (_ & _ & -> & _).
    destruct (blocks_quiet env a) as (_ & -> & _).
    unfold tail_events, global_stage1.
    destruct (ts_status env a =? 0)%Z; reflexivity.
  - unfold ts_cmd, ts_exe; destruct (truthy (logfile a)); reflexivity.
Qed.

(** C5.  Direct I/O is chosen per job.  Every revision range submits its
    cluster-detection job, which runs persons.r on the range, with
    [direct_io] set to [True] in its keyword arguments.  Every
    external-process job of a run is such a job; every other job
    ([doProjectAnalysis], [loginfo], [layout_graph], [generate_report])
    is submitted without a [direct_io] option; and the only direct call
    of the wrapper, the global time-series analysis, passes
    [direct_io=True]. *)
Theorem direct_io_is_per_job (a : Invocation) :
  per_range env a (fun _ rid b => cluster_job_streams env rid b)
  /\ Forall (fun j =>
            match job_func j with
            | Fn.execute_command =>
                kwarg "direct_io" (job_kwargs j) = Some (PBool true)
                /\ exists cmd,
                     job_args j = [PStrs cmd]
                     /\ hd_error cmd
                        = Some (resource_filename env "R/cluster/persons.r")
            | _ => kwarg "direct_io" (job_kwargs j) = None
            end)
         (submitted (trace_of env a))
  /\ exists rd c cmd cwd st,
       global_stages (trace_of env a)
       = [EvDispatchTs rd c; EvExecute cmd true cwd st]
       /\ hd_error cmd = Some (resource_filename env "R/analyse_ts.r").
Proof.
  split; [|split].
  - eapply per_range_impl; [|apply run_blocks].
    intros _ rid b _ (s1 & lg & s2 & H12 & Hb).
    assert (Hrest : exists rest, b = EvAdd s1 :: EvAdd lg :: EvAdd s2 :: rest).
    { destruct (negb (no_report a)).
      - destruct Hb as (pat & files & lj & dots & r & -> & _).
        eexists; cbn [app]; reflexivity.
      - subst b; eexists; reflexivity. }
    destruct Hrest as [rest ->].
    destruct H12 as (_ & _ & (F2 & _) & cmd & Ha & Hh & Hl & Hk).
    exists s1, lg, s2, rest; split; [reflexivity|]; split.
    + split; [exact F2|]; exists cmd; auto.
    + rewrite Hk; reflexivity.
  - eapply Forall_impl; [|apply run_job_io].
    intros j; unfold job_io; destruct (job_func j);
      try (intros ->; reflexivity).
    intros (cmd & Ha & Hh & ->); split; [reflexivity|].
    exists cmd; auto.
  - destruct (run_global_stages a) as [H1 H2].
    do 5 eexists; split; [exact H1|exact H2].
Qed.

Lemma ml_loop_calls (cmd : list string) (logfile : option string)
      (l : list (nat * MailingList)) : forall (t : Trace),
  Forall (ml_call env) t ->
  Forall (ml_call env)
    (snd (for_each
            (fun (_ : unit) '(i, ml) =>
               log_info ("=> Analysing mailing list '" ++ ml_name ml
                         ++ "' of type '" ++ ml_type ml ++ "'")%string ;;
               let logargs := [] in
               let logargs :=
                 if truthy logfile
                 then ["--logfile";
                       (fmt logfile ++ ".R.ml." ++ str (Z.of_nat i))%string]
                 else logargs in
               execute_command env
                 ([resource_filename env "R/ml/batch.r"] ++ logargs ++ cmd
                    ++ [ml_name ml])
                 true
                 (Some (fst (pathsplit env
                               (resource_filename env "R/ml/batch.r")))))
            l tt t)).
Proof.
  induction l as [|[i ml] l IH]; intros t Ht; [exact Ht|].
  cbn [for_each]; unfold bind at 1.
  unfold bind at 1, log_info, emit, execute_command.
  match goal with
  | |- context [(?s =? 0)%Z] => destruct (s =? 0)%Z
  end.
  - apply IH.
    rewrite <- app_assoc; apply Forall_app; split; [exact Ht|].
    repeat constructor.
  - cbn [snd]; rewrite <- app_assoc; apply Forall_app; split; [exact Ht|].
    repeat constructor.
Qed.

(** C6.  Every invocation of [execute_command] in the module supplies an
    argument vector, a working directory and the direct-I/O flag: the
    cluster-detection jobs of [project_analyse], its direct call for the
    time-series analysis, and the calls of [mailinglist_analyse].  The
    wrapper returns normally when the process exits with status zero and
    raises otherwise. *)
Theorem execute_command_invocations :
  (forall a : Invocation,
      Forall (fun j =>
                job_func j = Fn.execute_command ->
                exists cmd cwd,
                  job_args j = [PStrs cmd]
                  /\ kwarg "cwd" (job_kwargs j) = Some (PStr cwd)
                  /\ kwarg "direct_io" (job_kwargs j) = Some (PBool true))
             (submitted (trace_of env a))
      /\ exists rd c cmd cwd st,
           global_stages (trace_of env a)
           = [EvDispatchTs rd c; EvExecute cmd true (Some cwd) st])
  /\ (forall resdir mldir prosoda_conf project_conf loglevel logfile jobs,
         Forall (ml_call env)
           (snd (mailinglist_analyse env resdir mldir prosoda_conf
                   project_conf loglevel logfile jobs [])))
  /\ (forall cmd direct_io cwd t,
         (subprocess_status env t cmd cwd = 0%Z ->
          fst (execute_command env cmd direct_io cwd t) = Ok tt)
         /\ (subprocess_status env t cmd cwd <> 0%Z ->
             fst (execute_command env cmd direct_io cwd t)
             = Raise (JobFailure (subprocess_status env t cmd cwd)))).
Proof.
  split; [|split].
  - intros a; split.
    + eapply Forall_impl; [|apply run_job_io].
      intros j Hj Hf; unfold job_io in Hj; rewrite Hf in Hj.
      destruct Hj as (cmd & Ha & _ & Hk); rewrite Hk.
      exists cmd; eexists; split; [exact Ha|split; reflexivity].
    + destruct (run_global_stages a) as [H _].
      do 5 eexists; exact H.
  - intros resdir mldir prosoda_conf project_conf loglevel logfile jobs.
    unfold mailinglist_analyse.
    destruct (pathsplit env (resource_filename env "R/ml/batch.r"))
      as [cwd tl_] eqn:Esplit.
    unfold bind at 1.
    match goal with
    | |- context [for_each ?f ?l tt []] =>
        pose proof (ml_loop_calls
                      ((((((([] ++ ["--loglevel"; loglevel])
                             ++ ["-c"; prosoda_conf])
                            ++ ["-p"; project_conf]) ++ ["-j"; str jobs])
                          ++ [pathjoin env
                                [resdir;
                                 c_project (Configuration_load env
                                              prosoda_conf project_conf);
                                 "ml"]]) ++ [mldir]))
                      logfile l [] (Forall_nil _)) as Hloop
    end.
    rewrite Esplit in Hloop; cbn [fst] in Hloop.
    match type of Hloop with
    | Forall _ (snd ?r) => destruct r as [[[]|e] t']
    end; cbn [snd] in *; [|exact Hloop].
    unfold log_info, emit; cbn [snd].
    apply Forall_app; split; [exact Hloop|repeat constructor].
  - intros cmd direct_io cwd t; unfold execute_command; split.
    + intros ->; reflexivity.
    + intros H; apply Z.eqb_neq in H; rewrite H; reflexivity.
Qed.
End Processes.

(** ** Joining nothing, and the release ranges *)

Section Setup.
Variable env : Env.

(** C7.  Joining the empty list answers [AllSucceeded] at once, whatever
    has been submitted.  When there are no revision ranges (in particular
    when the configuration lists at most one revision), [project_analyse]
    submits nothing, joins the empty list, and goes on directly with the
    global stages. *)
Theorem join_nothing (a : Invocation) :
  (forall t : Trace,
      BatchJob.join env [] t = (Ok AllSucceeded, t ++ [EvJoin []]))
  /\ (length (c_revisions (conf_of env a)) <= 1 -> range_ids_of env a = [])
  /\ (range_ids_of env a = [] ->
      submitted (trace_of env a) = []
      /\ joins (trace_of env a) = [[]]
      /\ exists pre rd c post,
           trace_of env a
           = pre ++ EvJoin [] :: EvLogInfo "=> Preparing time series data"
                 :: EvDispatchTs rd c :: post
           /\ global_stages pre = []).
Proof.
  split; [|split].
  - intros t; unfold BatchJob.join, BatchJob.status_of.
    rewrite closure_nil; reflexivity.
  - intros Hlen; rewrite range_ids_setup; unfold setup_of; cbn [snd].
    destruct (c_revisions (conf_of env a)) as [|r [|r' revs]];
      cbn in *; try reflexivity; lia.
  - intros Hnone.
    assert (Hb : range_blocks env a = [] /\ joined env a = []).
    { unfold range_blocks, joined.
      rewrite range_ids_setup in Hnone; rewrite Hnone; split; reflexivity. }
    destruct Hb as [Hb Hj].
    split; [rewrite submitted_run, Hb; reflexivity|].
    split; [rewrite joins_run, <- joined_run, Hj; reflexivity|].
    exists (head_events env a); do 3 eexists; split.
    + rewrite trace_run, Hb; unfold tail_events, global_stage1.
      rewrite Hj; cbn [concat app]; reflexivity.
    + apply head_quiet.
Qed.

(** C10, as amended.  [project_setup] returns; for a configuration whose
    list of revisions is not empty and has length [n] it answers a list
    of exactly [n - 1] range ids, and for an empty list of revisions it
    answers none; the [i]-th range id is the release range of the
    revision pair ([revisions[i]], [revisions[i+1]]), looked up after the
    release timeline was updated. *)
Theorem project_setup_ranges (conf : Conf) (recreate : bool) (t : Trace) :
  exists project_id dbm all_range_ids,
    fst (project_setup env conf recreate t)
    = Ok (project_id, dbm, all_range_ids)
    /\ dbm = fst (update_release_timeline env (DBManager env conf)
                    (c_project conf) (c_tagging conf) (c_revisions conf)
                    (c_rcs conf) recreate)
    /\ project_id = getProjectID env dbm (c_project conf) (c_tagging conf)
    /\ (c_revisions conf <> [] ->
        Z.of_nat (length all_range_ids)
        = (Z.of_nat (length (c_revisions conf)) - 1)%Z)
    /\ (c_revisions conf = [] -> all_range_ids = [])
    /\ forall i start end_,
         nth_error (c_revisions conf) i = Some start ->
         nth_error (c_revisions conf) (S i) = Some end_ ->
         nth_error all_range_ids i
         = Some (getReleaseRangeID env dbm project_id
                   (getRevisionID env dbm project_id start,
                    getRevisionID env dbm project_id end_)).
Proof.
  rewrite project_setup_run; unfold setup_of; cbv zeta; cbn [fst].
  do 3 eexists; split; [reflexivity|].
  split; [reflexivity|]; split; [reflexivity|]; split; [|split].
  - intros Hne; rewrite length_map; unfold zip; rewrite length_combine.
    destruct (c_revisions conf); [congruence|cbn [tl length]; lia].
  - intros ->; reflexivity.
  - intros i start end_ Hs He.
    erewrite map_nth_error; [|apply nth_error_zip_tl; eassumption].
    reflexivity.
Qed.
End Setup.

(** ** The sample project, run *)


(** The pool at work: when the commit analysis of the only range fails,
    joining its cluster-detection job reports the failure and the skip. *)
Example join_reports_the_skip_cascade :
  fst (BatchJob.join Sample.broken [2]
         (trace_of Sample.broken (Sample.invocation true)))
  = Ok (PartialFailure [0] [2]).
Proof. vm_compute; reflexivity. Qed.

(** C1 as stated fails: run without reports, the range v1..v2 has no
    report-generation job, so its chain does not exist. *)
Lemma chain_missing_without_reports :
  ~ pipeline_chains Sample.two (Sample.invocation true).
Proof.
  intros (pre & blocks & post & Ht & _ & _ & _ & HF).
  change (enumerate (range_ids_of Sample.two (Sample.invocation true)))
    with [(0, 1%Z)] in HF.
  inversion HF as [|x b l bs Hb Hrest]; subst.
  inversion Hrest; subst.
  destruct Hb as (s1 & lg & s2 & pat & files & lj & dots & r & Hb
                  & _ & _ & _ & _ & _ & Hr & _).
  assert (Hin : In r (submitted (trace_of Sample.two
                                   (Sample.invocation true)))).
  { apply submitted_in; rewrite Ht, Hb.
    apply in_or_app; right; apply in_or_app; left.
    cbn [concat]; rewrite app_nil_r.
    apply in_or_app; right; apply in_or_app; right; left; reflexivity. }
  assert (Hnone : Forall (fun j => job_func j <> Fn.generate_report)
                    (submitted (trace_of Sample.two (Sample.invocation true)))).
  { vm_compute; repeat (apply Forall_cons; [discriminate|]); apply Forall_nil. }
  rewrite Forall_forall in Hnone; exact (Hnone r Hin Hr).
Qed.

(** The sample project with three revisions and reports: both ranges
    have the whole chain. *)
Lemma chain_per_range_witness :
  no_report (Sample.invocation false) = false
  /\ pipeline_chains Sample.three (Sample.invocation false).
Proof.
  split; [reflexivity|].
  apply (proj2 (chain_per_range Sample.three (Sample.invocation false))).
  reflexivity.
Defined.

(** The sample project with two revisions, without reports: the join
    awaits the cluster-detection job of the only range. *)
Lemma no_report_submits_cluster_stage_only_witness :
  no_report (Sample.invocation true) = true
  /\ joins (trace_of Sample.two (Sample.invocation true)) = [[2]].
Proof.
  split; [reflexivity|].
  rewrite (proj2 (proj2 (no_report_submits_cluster_stage_only Sample.two
                           (Sample.invocation true) eq_refl))).
  reflexivity.
Defined.

(** The sample project with reports: the second range finds no graph
    file, and its report job has no dependency. *)
Lemma glob_between_submissions_before_join_witness :
  no_report (Sample.invocation false) = false
  /\ per_range Sample.three (Sample.invocation false)
       (fun _ _ b =>
          glob_then_report Sample.three
            (trace_of Sample.three (Sample.invocation false)) b).
Proof.
  split; [reflexivity|].
  apply (proj1 (glob_between_submissions_before_join Sample.three
                  (Sample.invocation false) eq_refl)).
Defined.

(** A process that exits with status 2 makes the wrapper raise. *)
Lemma execute_command_invocations_witness :
  subprocess_status Sample.failing [] ["true"] None <> 0%Z
  /\ fst (execute_command Sample.failing ["true"] false None [])
     = Raise (JobFailure 2).
Proof.
  split; [discriminate|].
  apply (proj2 (proj2 (proj2 (execute_command_invocations Sample.failing))
                  ["true"] false None [])).
  discriminate.
Defined.

(** One revision, no range: the join is on the empty list. *)
Lemma join_nothing_witness :
  range_ids_of Sample.one (Sample.invocation false) = []
  /\ joins (trace_of Sample.one (Sample.invocation false)) = [[]].
Proof.
  split; [reflexivity|].
  apply (proj2 (proj2 (join_nothing Sample.one (Sample.invocation false)))
           eq_refl).
Defined.

(** C10 as stated fails: for a configuration without revisions
    [project_setup] answers the empty list of range ids, which has length
    0 while [n - 1] is -1. *)
Lemma no_revisions_no_ranges :
  (exists project_id dbm,
      fst (project_setup Sample.none (Sample.conf []) false [])
      = Ok (project_id, dbm, []))
  /\ ~ one_range_less Sample.none (Sample.conf []) false [].
Proof.
  split; [rewrite project_setup_run; do 2 eexists; reflexivity|].
  intros (project_id & dbm & ids & Hrun & Hlen).
  rewrite project_setup_run in Hrun; cbn [fst] in Hrun.
  injection Hrun as _ _ <-.
  vm_compute in Hlen; discriminate.
Qed.

(** The sample project has three revisions, so two ranges, and the second
    range is the pair (v2, v3). *)
Lemma project_setup_ranges_witness :
  c_revisions (Sample.conf ["v1"; "v2"; "v3"]) <> []
  /\ nth_error (c_revisions (Sample.conf ["v1"; "v2"; "v3"])) 1 = Some "v2"
  /\ nth_error (c_revisions (Sample.conf ["v1"; "v2"; "v3"])) 2 = Some "v3"
  /\ exists project_id dbm ids,
       fst (project_setup Sample.three (Sample.conf ["v1"; "v2"; "v3"])
              false [])
       = Ok (project_id, dbm, ids)
       /\ Z.of_nat (length ids) = 2%Z
       /\ nth_error ids 1 = Some 2%Z.
Proof.
  split; [discriminate|]; split; [reflexivity|]; split; [reflexivity|].
  destruct (project_setup_ranges Sample.three (Sample.conf ["v1"; "v2"; "v3"])
              false [])
    as (project_id & dbm & ids & Hrun & Hdbm & Hpid & Hlen & _ & Hnth).
  exists project_id, dbm, ids; split; [exact Hrun|]; split.
  - rewrite Hlen; [reflexivity|discriminate].
  - rewrite (Hnth 1 "v2" "v3" eq_refl eq_refl), Hpid, Hdbm; reflexivity.
Defined.

(** * Further properties of project.py *)

(** ** Printing integers and joining strings *)




(** ** Calls that only happen outside the loop *)

Lemma ctags_checks_app (t u : Trace) :
  ctags_checks (t ++ u) = ctags_checks t + ctags_checks u.
Proof.
  induction t as [|e t IH]; simpl; [reflexivity|].
  destruct e; simpl; rewrite ?IH; reflexivity.
Qed.

Lemma executes_app (t u : Trace) : executes (t ++ u) = executes t ++ executes u.
Proof.
  induction t as [|e t IH]; simpl; [reflexivity|].
  destruct e; simpl; rewrite ?IH; reflexivity.
Qed.

Lemma globs_app (t u : Trace) : globs (t ++ u) = globs t ++ globs u.
Proof.
  induction t as [|e t IH]; simpl; [reflexivity|].
  destruct e; simpl; rewrite ?IH; reflexivity.
Qed.

Lemma globs_map_add (js : list Job) : globs (map EvAdd js) = [].
Proof. induction js; simpl; auto. Qed.

Lemma range_calls_quiet (t : Trace) :
  forallb is_range_call t = true ->
  ctags_checks t = 0 /\ executes t = [].
Proof.
  induction t as [|e t IH]; simpl; [auto|].
  destruct e; simpl; try discriminate; exact IH.
Qed.

Lemma forallb_map_add (js : list Job) :
  forallb is_range_call (map EvAdd js) = true.
Proof. induction js; simpl; auto. Qed.

(** ** Counting what the loop does *)

Section BlockCounts.
Variable env : Env.
Variables (prosoda_conf project_conf : string) (no_report : bool)
          (loglevel : string) (logfile : option string).
Variables (conf : Conf) (repo project_resdir : string)
          (project_id : Z) (dbm : DBM env).

Let events := range_events env prosoda_conf project_conf no_report loglevel
                logfile conf repo project_resdir project_id dbm.
Let handles := range_handles env prosoda_conf project_conf no_report loglevel
                 logfile conf repo project_resdir project_id dbm.
Let blocks := loop_blocks env prosoda_conf project_conf no_report loglevel
                logfile conf repo project_resdir project_id dbm.
Let collected := loop_handles env prosoda_conf project_conf no_report loglevel
                   logfile conf repo project_resdir project_id dbm.
Let files := dot_files env prosoda_conf project_conf loglevel logfile conf
               repo project_resdir project_id dbm.

Lemma events_range_calls (t : Trace) (ir : nat * Z) :
  forallb is_range_call (events t ir) = true.
Proof.
  destruct ir as [i rid]; unfold events; rewrite events_eq; cbv zeta.
  destruct no_report; cbn [app forallb is_range_call andb]; [reflexivity|].
  rewrite forallb_app, forallb_map_add; reflexivity.
Qed.

Lemma events_globs (t : Trace) (ir : nat * Z) :
  globs (events t ir)
  = if no_report then []
    else [(dot_pattern env project_resdir project_id dbm (snd ir), files t ir)].
Proof.
  destruct ir as [i rid]; unfold events; rewrite events_eq; cbv zeta.
  destruct no_report; cbn [app globs snd]; [reflexivity|].
  rewrite globs_app, globs_map_add; reflexivity.
Qed.

Lemma events_submitted_length (t : Trace) (ir : nat * Z) :
  length (submitted (events t ir))
  = if no_report then 3 else 5 + length (files t ir).
Proof.
  destruct ir as [i rid]; unfold events; rewrite submitted_events; cbv zeta.
  destruct no_report; cbn [app length]; [reflexivity|].
  rewrite length_app, dot_jobs_length; cbn [length]; fold files; lia.
Qed.

Lemma handles_length (t : Trace) (ir : nat * Z) :
  length (handles t ir) = if no_report then 1 else 2.
Proof.
  unfold handles, range_handles; destruct no_report; reflexivity.
Qed.

Lemma blocks_range_calls (l : list (nat * Z)) : forall t,
  forallb is_range_call (concat (blocks t l)) = true.
Proof.
  induction l as [|ir l IH]; intros t; [reflexivity|].
  unfold blocks; cbn [loop_blocks concat]; fold events blocks.
  rewrite forallb_app, events_range_calls, IH; reflexivity.
Qed.

Lemma blocks_counts (l : list (nat * Z)) : forall t,
  length (globs (concat (blocks t l)))
  = (if no_report then 0 else length l)
  /\ length (submitted (concat (blocks t l)))
     = (if no_report then 3 else 5) * length l
       + length (concat (map snd (globs (concat (blocks t l)))))
  /\ length (collected t l) = (if no_report then 1 else 2) * length l.
Proof.
  induction l as [|ir l IH]; intros t.
  - cbn; destruct no_report; auto.
  - unfold blocks, collected.
    cbn [loop_blocks loop_handles concat length].
    fold events blocks handles collected.
    destruct (IH (t ++ events t ir)) as (G & S & H).
    rewrite globs_app, submitted_app, !length_app, map_app, concat_app,
      length_app, G, S, H, events_submitted_length, handles_length,
      events_globs.
    destruct no_report; cbn [length map concat snd app]; repeat split;
      rewrite ?app_nil_r; lia.
Qed.
End BlockCounts.

Section RunCounts.
Variable env : Env.
Variable a : Invocation.

Lemma ranges_length :
  length (enumerate (snd (setup_of env (conf_of env a) (recreate a))))
  = length (range_ids_of env a).
Proof.
  rewrite range_ids_setup; unfold enumerate.
  rewrite length_combine, length_seq; lia.
Qed.

Lemma ranges_per_revision_pair :
  length (range_ids_of env a) = length (c_revisions (conf_of env a)) - 1.
Proof.
  rewrite range_ids_setup; unfold setup_of; cbn [snd].
  rewrite length_map; unfold zip; rewrite length_combine.
  destruct (c_revisions (conf_of env a)); cbn [tl length]; lia.
Qed.

Lemma blocks_only_range_calls :
  ctags_checks (concat (range_blocks env a)) = 0
  /\ executes (concat (range_blocks env a)) = [].
Proof. apply range_calls_quiet, blocks_range_calls. Qed.

(** X1.  [check4ctags] is called exactly when the tagging of the
    configuration is "proximity", and then right after the parallelism
    level was set and before the project is set up in the database; it is
    never called later in the run. *)
Theorem ctags_checked_for_proximity_tagging_only :
  exists rest,
    trace_of env a
    = EvSetParallelJobs (n_jobs a)
        :: (if String.eqb "proximity" (c_tagging (conf_of env a))
            then [EvCheck4ctags] else [])
        ++ EvLogInfo ("=> Setting up project '"
                      ++ c_project (conf_of env a) ++ "'")%string
        :: rest
    /\ ctags_checks rest = 0.
Proof.
  exists (concat (range_blocks env a) ++ tail_events env a); split.
  - rewrite trace_run; unfold head_events.
    cbn [app]; rewrite <- app_assoc; reflexivity.
  - rewrite ctags_checks_app.
    destruct blocks_only_range_calls as (-> & _).
    unfold tail_events, global_stage1.
    destruct (ts_status env a =? 0)%Z; reflexivity.
Qed.

(** X2.  The one process [project_analyse] runs directly is the
    time-series analysis, as its last step after the join: analyse_ts.r,
    then the log file "<logfile>.R.ts" when a log file is set, the log
    level, the two configuration files and the result directory of the
    project, run with direct I/O in the directory of the script.  When the
    script exits with status zero the run logs that it is complete and
    returns; otherwise the failure of that process is raised and nothing
    is logged after it. *)
Theorem run_ends_with_time_series_analysis :
  let exe := resource_filename env "R/analyse_ts.r" in
  let cmd :=
    [exe]
    ++ (if truthy (logfile a)
        then ["--logfile"; (fmt (logfile a) ++ ".R.ts")%string]
        else [])
    ++ ["--loglevel"; loglevel a; "-c"; prosoda_conf a;
        "-p"; project_conf a;
        pathjoin env [resdir a; c_project (conf_of env a);
                      c_tagging (conf_of env a)]] in
  let cwd := Some (fst (pathsplit env exe)) in
  exists t st,
    executes (trace_of env a) = [(cmd, st)]
    /\ ((st = 0%Z
         /\ run env a
            = (Ok tt, t ++ [EvExecute cmd true cwd st;
                            EvLogInfo "=> Prosoda run complete!"]))
        \/ (st <> 0%Z
            /\ run env a
               = (Raise (JobFailure st), t ++ [EvExecute cmd true cwd st]))).
Proof.
  intros exe cmd cwd.
  assert (Hc : cmd = ts_cmd env a).
  { subst cmd exe; unfold ts_cmd, ts_exe.
    destruct (truthy (logfile a)); reflexivity. }
  assert (Hw : cwd = ts_cwd env) by reflexivity.
  clearbody cmd cwd; subst cmd cwd.
  exists (head_events env a ++ concat (range_blocks env a)
            ++ global_stage1 env a),
    (ts_status env a); split.
  - rewrite trace_run, !executes_app.
    destruct blocks_only_range_calls as (_ & ->).
    unfold head_events, tail_events, global_stage1.
    destruct (String.eqb "proximity" (c_tagging (conf_of env a)));
      destruct (ts_status env a =? 0)%Z; reflexivity.
  - rewrite project_analyse_run; unfold tail_events.
    destruct (Z.eqb_spec (ts_status env a) 0) as [E|E]; [left|right];
      (split; [exact E|]); rewrite <- !app_assoc, ?app_nil_r; reflexivity.
Qed.

(** X3.  What a run asks of the pool and of the file system, counted:
    the one join names one handle per range without reports and two with
    reports; the result directory is globbed once per range with reports
    and never without; and the number of submitted jobs is three per range
    without reports, five per range plus one per graph file found with
    reports. *)
Theorem run_counts :
  (exists hs,
      joins (trace_of env a) = [hs]
      /\ length hs
         = (if no_report a then 1 else 2) * length (range_ids_of env a))
  /\ length (globs (trace_of env a))
     = (if no_report a then 0 else length (range_ids_of env a))
  /\ length (submitted (trace_of env a))
     = (if no_report a then 3 else 5) * length (range_ids_of env a)
       + length (concat (map snd (globs (trace_of env a)))).
Proof.
  destruct (blocks_counts env (prosoda_conf a) (project_conf a) (no_report a)
              (loglevel a) (logfile a) (conf_of env a)
              (pathjoin env [gitdir a; c_repo (conf_of env a); ".git"])
              (pathjoin env [resdir a; c_project (conf_of env a);
                             c_tagging (conf_of env a)])
              (fst (fst (setup_of env (conf_of env a) (recreate a))))
              (snd (fst (setup_of env (conf_of env a) (recreate a))))
              (enumerate (snd (setup_of env (conf_of env a) (recreate a))))
              (head_events env a)) as (G & S & H).
  fold (range_blocks env a) in G, S; fold (joined env a) in H.
  rewrite ranges_length in G, S, H.
  assert (Eg : globs (trace_of env a) = globs (concat (range_blocks env a))).
  { rewrite trace_run, !globs_app; unfold head_events, tail_events,
      global_stage1.
    destruct (String.eqb "proximity" (c_tagging (conf_of env a)));
      destruct (ts_status env a =? 0)%Z; cbn [globs app];
      rewrite app_nil_r; reflexivity. }
  split; [|split].
  - exists (joined env a); split; [|exact H].
    rewrite joins_run, joined_run; reflexivity.
  - rewrite Eg; exact G.
  - rewrite Eg, submitted_run; exact S.
Qed.

Lemma per_range_count (P : nat -> Z -> Trace -> Prop) (f : Job -> bool)
      (k : nat) :
  per_range env a P ->
  (forall i rid b, P i rid b -> length (filter f (submitted b)) = k) ->
  length (filter f (submitted (trace_of env a)))
  = k * length (range_ids_of env a).
Proof.
  intros (pre & bs & post & Ht & Hpre & _ & Hpost & HF) Hk.
  rewrite Ht, !submitted_app, Hpre, Hpost, app_nil_r; cbn [app]; clear Ht.
  assert (E : length (range_ids_of env a)
              = length (enumerate (range_ids_of env a))).
  { unfold enumerate; rewrite length_combine, length_seq; lia. }
  rewrite E; clear E.
  induction HF as [|[i rid] b l bs' Hb _ IH]; [cbn; lia|].
  cbn [concat length]; rewrite submitted_app, filter_app, length_app, IH.
  rewrite (Hk _ _ _ Hb); lia.
Qed.

Lemma block_analysis_jobs (reports : bool) (rid : Z) (b : Trace) :
  block_spec env reports rid b ->
  length (filter (fun j => Fn.eqb (job_func j) Fn.doProjectAnalysis)
            (submitted b)) = 1
  /\ length (filter (fun j => Fn.eqb (job_func j) Fn.execute_command)
               (submitted b)) = 1.
Proof.
  intros (s1 & lg & s2 & ((F1 & _) & (F2 & _) & (F3 & _) & _) & Hb).
  destruct reports.
  - destruct Hb as (pat & fs & lj & dots & r & -> & _ & (F4 & _) & Hd & _
                    & (F5 & _)).
    assert (Hnone : forall f, f <> Fn.layout_graph ->
              filter (fun j => Fn.eqb (job_func j) f) dots = []).
    { intros f Hf; clear - Hd Hf.
      induction Hd as [|d dots (Fd & _) _ IH]; [reflexivity|].
      cbn [filter]; rewrite Fd, IH.
      destruct f; try reflexivity; contradiction Hf; reflexivity. }
    cbn [app submitted]; rewrite submitted_app, submitted_map_add.
    cbn [filter submitted]; rewrite F1, F2, F3, F4; cbn [Fn.eqb].
    rewrite !filter_app; cbn [filter]; rewrite F5; cbn [Fn.eqb].
    rewrite !Hnone by discriminate; split; reflexivity.
  - subst b; cbn [submitted filter]; rewrite F1, F2, F3; cbn [Fn.eqb].
    split; reflexivity.
Qed.

(** X9.  One commit analysis and one cluster detection per pair of
    consecutive revisions: a configuration with [n] revisions makes
    [project_analyse] submit [n - 1] jobs of each kind (none when there
    are fewer than two revisions). *)
Theorem one_analysis_per_revision_pair :
  length (jobs_calling Fn.doProjectAnalysis (trace_of env a))
  = length (c_revisions (conf_of env a)) - 1
  /\ length (jobs_calling Fn.execute_command (trace_of env a))
     = length (c_revisions (conf_of env a)) - 1.
Proof.
  rewrite <- ranges_per_revision_pair; unfold jobs_calling; split.
  - rewrite (per_range_count _ _ 1 (run_blocks env a)); [lia|].
    intros i rid b Hb; apply (block_analysis_jobs _ _ _ Hb).
  - rewrite (per_range_count _ _ 1 (run_blocks env a)); [lia|].
    intros i rid b Hb; apply (block_analysis_jobs _ _ _ Hb).
Qed.
End RunCounts.

(** ** Log files, result directories and the independence of ranges *)

Section RangeDetails.
Variable env : Env.
Variable a : Invocation.



(** X5.  An empty log file name is no log file: [project_analyse] and
    [mailinglist_analyse] behave on [logfile=""] exactly as on
    [logfile=None]. *)
Theorem empty_logfile_is_no_logfile :
  run env (with_logfile a (Some EmptyString)) = run env (with_logfile a None)
  /\ forall resdir mldir prosoda_conf project_conf loglevel jobs t,
       mailinglist_analyse env resdir mldir prosoda_conf project_conf
         loglevel (Some EmptyString) jobs t
       = mailinglist_analyse env resdir mldir prosoda_conf project_conf
           loglevel None jobs t.
Proof.
  split; [|intros resdir mldir prosoda_conf project_conf loglevel jobs t].
  - unfold run, with_logfile, project_analyse, analyse_range.
    cbn [resdir gitdir prosoda_conf project_conf no_report loglevel logfile
         recreate n_jobs].
    change (truthy (Some EmptyString)) with false.
    change (truthy None) with false.
    cbv iota; reflexivity.
  - unfold mailinglist_analyse.
    change (truthy (Some EmptyString)) with false.
    change (truthy None) with false.
    cbv iota; reflexivity.
Qed.



End RangeDetails.

(** ** The log message of the cluster stage is fire-and-forget *)

Section LogJobs.
Variable env : Env.
Variable a : Invocation.

Lemma block_dep_targets (reports : bool) (rid : Z) (b : Trace) :
  block_spec env reports rid b -> incl b (trace_of env a) ->
  Forall (fun j => Forall (dep_target (trace_of env a)) (job_deps j))
         (submitted b).
Proof.
  intros (s1 & lg & s2 & ((F1 & _ & D1) & (_ & _ & D2) & (F3 & D3) & _) & Hb)
         Hincl.
  assert (Hin : forall j, In (EvAdd j) b -> In j (submitted (trace_of env a)))
    by (intros j Hj; apply submitted_in, Hincl, Hj).
  assert (T1 : In (EvAdd s1) b -> dep_target (trace_of env a) (job_id s1)).
  { intros H; exists s1; repeat split; auto.
    left; rewrite F1; discriminate. }
  assert (T3 : In (EvAdd s2) b -> dep_target (trace_of env a) (job_id s2)).
  { intros H; exists s2; repeat split; auto.
    left; rewrite F3; discriminate. }
  destruct reports.
  - destruct Hb as (pat & fs & lj & dots & r & -> & _ & (_ & _ & D4) & Hd & _
                    & (_ & _ & D5)).
    assert (I1 : dep_target (trace_of env a) (job_id s1))
      by (apply T1; left; reflexivity).
    assert (I3 : dep_target (trace_of env a) (job_id s2))
      by (apply T3; right; right; left; reflexivity).
    assert (I4 : dep_target (trace_of env a) (job_id lj)).
    { exists lj; split; [|split; [reflexivity|]].
      - apply Hin; do 4 right; left; reflexivity.
      - right; exists s2; repeat split; auto.
        apply Hin; right; right; left; reflexivity. }
    cbn [app submitted]; rewrite submitted_app, submitted_map_add.
    cbn [submitted].
    apply Forall_cons; [rewrite D1; apply Forall_nil|].
    apply Forall_cons; [rewrite D2; apply Forall_cons; auto|].
    apply Forall_cons; [rewrite D3; apply Forall_cons; auto|].
    apply Forall_cons; [rewrite D4; apply Forall_cons; auto|].
    apply Forall_app; split.
    + eapply Forall_impl; [|exact Hd].
      intros d (_ & _ & ->); apply Forall_cons; [exact I3|].
      apply Forall_cons; [exact I4|apply Forall_nil].
    + apply Forall_cons; [|apply Forall_nil].
      rewrite D5; apply Forall_forall; intros h Hh.
      apply in_map_iff in Hh; destruct Hh as (d & <- & Hdin).
      rewrite Forall_forall in Hd; destruct (Hd d Hdin) as (Fd & _).
      exists d; split; [|split; [reflexivity|left; rewrite Fd; discriminate]].
      apply Hin; cbn [app]; do 5 right; apply in_or_app; left.
      apply in_map; exact Hdin.
  - subst b.
    assert (I1 : dep_target (trace_of env a) (job_id s1))
      by (apply T1; left; reflexivity).
    cbn [submitted].
    apply Forall_cons; [rewrite D1; apply Forall_nil|].
    apply Forall_cons; [rewrite D2; apply Forall_cons; auto|].
    apply Forall_cons; [rewrite D3; apply Forall_cons; auto|].
    apply Forall_nil.
Qed.

Lemma run_dep_targets :
  Forall (fun j => Forall (dep_target (trace_of env a)) (job_deps j))
         (submitted (trace_of env a)).
Proof.
  eapply (per_range_submitted env a
            (fun _ rid b => block_spec env (negb (no_report a)) rid b
                            /\ incl b (trace_of env a))).
  - eapply per_range_impl; [|apply run_blocks].
    intros i rid b Hincl Hb; split; assumption.
  - intros i rid b [Hb Hincl]; eapply block_dep_targets; eassumption.
Qed.

Lemma same_id_same_job (j j' : Job) :
  In j (submitted (trace_of env a)) -> In j' (submitted (trace_of env a)) ->
  job_id j = job_id j' -> j = j'.
Proof.
  intros H H' E.
  destruct (numbered_in _ _ (run_numbered env a) H) as [N _].
  destruct (numbered_in _ _ (run_numbered env a) H') as [N' _].
  rewrite E, N' in N; congruence.
Qed.

(** X7.  The "Detecting clusters..." log message of a range is
    fire-and-forget: no job of the run names it as a dependency, and the
    join does not name it, so nothing ever waits for it. *)
Theorem cluster_log_job_is_never_awaited :
  per_range env a
    (fun _ _ b =>
       exists s1 lg s2 rest,
         b = EvAdd s1 :: EvAdd lg :: EvAdd s2 :: rest
         /\ job_func lg = Fn.loginfo
         /\ is_dep s1 lg
         /\ never_awaited (trace_of env a) lg).
Proof.
  eapply per_range_impl; [|apply run_blocks].
  intros i rid b Hincl
         (s1 & lg & s2 & ((F1 & _) & (F2 & _ & D2) & _) & Hb).
  assert (Hshape : exists rest, b = EvAdd s1 :: EvAdd lg :: EvAdd s2 :: rest).
  { destruct (negb (no_report a)).
    - destruct Hb as (pat & fs & lj & dots & r & -> & _).
      eexists; cbn [app]; reflexivity.
    - exists []; exact Hb. }
  destruct Hshape as [rest ->].
  assert (H1 : In s1 (submitted (trace_of env a)))
    by (apply submitted_in, Hincl; left; reflexivity).
  assert (H2 : In lg (submitted (trace_of env a)))
    by (apply submitted_in, Hincl; right; left; reflexivity).
  exists s1, lg, s2, rest; split; [reflexivity|].
  split; [exact F2|].
  split; [unfold is_dep; rewrite D2; left; reflexivity|].
  split.
  - intros h (j & Hj & _ & Hd).
    pose proof run_dep_targets as G.
    rewrite Forall_forall in G; specialize (G j Hj).
    rewrite Forall_forall in G.
    destruct (G _ Hd) as (j' & Hj' & Hid & Hkind).
    assert (E : j' = lg) by (apply same_id_same_job; assumption).
    subst j'; destruct Hkind as [Hk|(s & Hs & Fs & Ds)].
    + exact (Hk F2).
    + rewrite D2 in Ds; injection Ds as Ds.
      assert (E : s1 = s) by (apply same_id_same_job; assumption).
      subst s; rewrite F1 in Fs; discriminate.
  - rewrite joins_run; apply Forall_cons; [|apply Forall_nil].
    intros Hin; apply in_map_iff in Hin.
    destruct Hin as (j & Hid & Hj).
    apply filter_In in Hj; destruct Hj as [Hj Haw].
    assert (E : j = lg) by (apply same_id_same_job; assumption).
    subst j; unfold awaited in Haw; rewrite F2 in Haw; discriminate.
Qed.
End LogJobs.

(** ** The mailing lists, one after the other *)

Section MailingLists.
Variable env : Env.





End MailingLists.

(** ** The sample project, with its log file *)

